(** * Akademia backend: server bootstrap, database connection and sign-in

    A shallow embedding of [src/setupServer.ts], [src/routes.ts],
    [src/setupDB.ts] and [src/features/auth/controllers/signin.ts], and the
    properties of the written specification checked against it.

    Conventions.  A value of TypeScript type [string | undefined] is an
    [option string]; numbers are [Z]; a JavaScript object used as a bag of
    named fields is a [gmap string _]; mutation of [app], [req], [res] and
    of the process is explicit state passing. *)

From Stdlib Require Import ZArith Lia.
From stdpp Require Import gmap strings list.

Open Scope string_scope.
Open Scope list_scope.
Open Scope Z_scope.

(** ** Process-wide configuration ([./config], only its fields are used) *)

Module Config.

Record t : Type := {
  DATABASE_URL   : option string;
  JWT_TOKEN      : option string;
  NODE_ENV       : option string;
  SECRET_KEY_ONE : option string;
  SECRET_KEY_TWO : option string;
  CLIENT_URL     : option string;
  REDIS_HOST     : option string
}.

(** [v != 'development'] for [v : string | undefined]. *)
Definition neq_str (v : option string) (s : string) : bool :=
  match v with
  | Some x => negb (String.eqb x s)
  | None => true
  end.

End Config.

(** ** The Express application object *)

Module Express.

Record CookieSessionOptions : Type := {
  name   : string;
  keys   : list (option string);
  maxAge : Z;
  secure : bool
}.

Record CorsOptions : Type := {
  origin               : option string;
  credentials          : option bool;
  optionsSuccessStatus : option Z;
  methods              : list string
}.

(** What can be handed to [app.use] / [app.all] in this repository. *)
Inductive Middleware : Type :=
| CookieSession (o : CookieSessionOptions)
| Hpp
| Helmet
| Cors (o : CorsOptions)
| Compression
| JsonParser (limit : string)
| UrlencodedParser (extended : bool) (limit : string)
| ServerAdapterRouter
| AuthRoutes
| SignoutRoutes
| VerifyUser
| CurrentUserRoutes
| NotFoundHandler
| ErrorMiddleware.

(** One entry of the router stack: the mount path ([None] when [use] got
    no path) and the function. *)
Record Layer : Type := { mount : option string; handler : Middleware }.

Definition Application : Type := list Layer.

(** [app.use(path?, f1, ..., fn)] pushes one layer per function, in
    order, at the end of the stack. *)
Definition use (path : option string) (fns : list Middleware)
    (app : Application) : Application :=
  app ++ map (fun f => {| mount := path; handler := f |}) fns.

(** [app.all(path, f)]. *)
Definition all (path : string) (f : Middleware) (app : Application)
    : Application :=
  app ++ [ {| mount := Some path; handler := f |} ].

Definition handlers (app : Application) : list Middleware :=
  map handler app.

(** *** Reading of the [cors] options by the [cors] package

    With a missing or empty origin the middleware passes the request on
    and sends no [Access-Control-Allow-Origin] header; with ['*'] it
    answers [*]; any other string is sent back as the one allowed
    origin. *)
Definition allow_origin_header (o : CorsOptions) : option string :=
  match origin o with
  | None => None
  | Some s => if String.eqb s "" then None else Some s
  end.

(** A cross-origin request is let through by the browser when the header
    is there and is [*] or the origin of the request. *)
Definition origin_permitted (o : CorsOptions) (request_origin : string)
    : bool :=
  match allow_origin_header o with
  | None => false
  | Some allowed =>
      String.eqb allowed "*" || String.eqb allowed request_origin
  end.

Definition method_permitted (o : CorsOptions) (m : string) : bool :=
  existsb (String.eqb m) (methods o).

(** The [cors] and [cookie-session] layers of a stack, in order. *)
Definition cors_layers (app : Application) : list CorsOptions :=
  omap (fun m => match m with Cors o => Some o | _ => None end)
       (handlers app).

Definition cookie_layers (app : Application) : list CookieSessionOptions :=
  omap (fun m => match m with CookieSession o => Some o | _ => None end)
       (handlers app).

(** [cookie-session] (through [cookies]) reads [maxAge] as a number of
    milliseconds from now. *)
Definition max_age_seconds (o : CookieSessionOptions) : Z :=
  maxAge o / 1000.

Definition SEVEN_DAYS_MS : Z := 7 * 24 * 3600 * 1000.

End Express.

(** ** JavaScript values that travel in documents and JSON bodies *)

Module Js.

Inductive Val : Type :=
| Str (s : string)
| Num (n : Z)
| ObjectId (hex : string)
| Date (ms : Z)
| Undefined.

(** The two constants of [http-status-codes] the sources use. *)
Definition HTTP_NOT_FOUND : Z := 404.
Definition HTTP_CREATED : Z := 201.

End Js.

(** ** The running process: what [setupServer.ts] acts on *)

Module Proc.

(** Anything a [catch] clause or an error middleware can receive.
    [CustomError] stands for an instance of (a subclass of) the
    [CustomError] class of [shared/globals/helpers/error-handler], given
    by what the handler reads from it: [statusCode] and the result of
    [serializeErrors()]. *)
Inductive Exn : Type :=
| CustomError (statusCode : Z) (serialized : gmap string Js.Val)
| RedisConnectFailed (client reason : string)
| OtherError (detail : string).

Inductive LogEntry : Type :=
| LogInfo (text : string) (arg : Z)
| LogError (e : Exn).

Inductive Link : Type := Idle | Connecting | Ready | Broken.

Record RedisClient : Type := { url : option string; link : Link }.

Inductive Adapter : Type := InMemoryAdapter | RedisAdapter.

Record IOServer : Type := {
  io_cors : Express.CorsOptions;
  adapter : Adapter
}.

Record t : Type := {
  app       : Express.Application;
  listening : option Z;
  io        : option IOServer;
  pubClient : option RedisClient;
  subClient : option RedisClient;
  exitCode  : option Z;
  callbacks : list LogEntry;   (* callbacks waiting for the event loop; each writes its entry *)
  log       : list LogEntry
}.

Definition initial : t :=
  {| app := []; listening := None; io := None; pubClient := None;
     subClient := None; exitCode := None; callbacks := []; log := [] |}.

Definition with_app (f : Express.Application -> Express.Application)
    (p : t) : t :=
  {| app := f (app p); listening := listening p; io := io p;
     pubClient := pubClient p; subClient := subClient p;
     exitCode := exitCode p; callbacks := callbacks p; log := log p |}.

(** [httpServer.listen(port, callback)]: the socket is bound in the call,
    the callback is left to the event loop.  The port is taken to be
    free: a start on a port already in use is outside this model. *)
Definition listen (port : Z) (callback : LogEntry) (p : t) : t :=
  {| app := app p; listening := Some port; io := io p;
     pubClient := pubClient p; subClient := subClient p;
     exitCode := exitCode p; callbacks := callbacks p ++ [callback];
     log := log p |}.

(** The event loop runs the callbacks that wait. *)
Definition run_callbacks (p : t) : t :=
  {| app := app p; listening := listening p; io := io p;
     pubClient := pubClient p; subClient := subClient p;
     exitCode := exitCode p; callbacks := [];
     log := log p ++ callbacks p |}.

Definition with_io (v : option IOServer) (p : t) : t :=
  {| app := app p; listening := listening p; io := v;
     pubClient := pubClient p; subClient := subClient p;
     exitCode := exitCode p; callbacks := callbacks p; log := log p |}.

Definition with_pubClient (v : option RedisClient) (p : t) : t :=
  {| app := app p; listening := listening p; io := io p;
     pubClient := v; subClient := subClient p;
     exitCode := exitCode p; callbacks := callbacks p; log := log p |}.

Definition with_subClient (v : option RedisClient) (p : t) : t :=
  {| app := app p; listening := listening p; io := io p;
     pubClient := pubClient p; subClient := v;
     exitCode := exitCode p; callbacks := callbacks p; log := log p |}.

Definition with_log (e : LogEntry) (p : t) : t :=
  {| app := app p; listening := listening p; io := io p;
     pubClient := pubClient p; subClient := subClient p;
     exitCode := exitCode p; callbacks := callbacks p;
     log := log p ++ [e] |}.

Definition is_ready (c : option RedisClient) : bool :=
  match c with
  | Some {| link := Ready |} => true
  | _ => false
  end.

(** Both bus connections are established. *)
Definition bus_ready (p : t) : bool :=
  is_ready (pubClient p) && is_ready (subClient p).

Definition exited (p : t) : bool :=
  match exitCode p with Some _ => true | None => false end.

(** The HTTP server takes connections: [listen] was called and the
    process is alive. *)
Definition accepts_http (p : t) : bool :=
  match listening p with Some _ => negb (exited p) | None => false end.

(** Real-time clients can connect: a socket.io server is attached to a
    listening HTTP server. *)
Definition accepts_realtime (p : t) : bool :=
  accepts_http p && match io p with Some _ => true | None => false end.

Definition has_redis_adapter (p : t) : bool :=
  match io p with
  | Some {| adapter := RedisAdapter |} => true
  | _ => false
  end.

End Proc.

(** ** Effects: state passing with exceptions, keeping every state passed

    [cur] is the process now, [past] the states it went through, oldest
    first.  Every primitive effect files the state it leaves behind. *)

Module Eff.

Record Run : Type := { cur : Proc.t; past : list Proc.t }.

Inductive Result (A : Type) : Type :=
| Ok (a : A)
| Throw (e : Proc.Exn).
Arguments Ok {A} a.
Arguments Throw {A} e.

Definition M (A : Type) : Type := Run -> Result A * Run.

Definition ret {A} (a : A) : M A := fun r => (Ok a, r).

Definition bind {A B} (m : M A) (k : A -> M B) : M B :=
  fun r =>
    match m r with
    | (Ok a, r') => k a r'
    | (Throw e, r') => (Throw e, r')
    end.

Definition throw {A} (e : Proc.Exn) : M A := fun r => (Throw e, r).

(** [try { body } catch (err) { handler(err) }] *)
Definition try_catch {A} (body : M A) (handler : Proc.Exn -> M A) : M A :=
  fun r =>
    match body r with
    | (Ok a, r') => (Ok a, r')
    | (Throw e, r') => handler e r'
    end.

Definition effect (f : Proc.t -> Proc.t) : M unit :=
  fun r => (Ok tt, {| cur := f (cur r); past := past r ++ [cur r] |}).

Definition start_run : Run := {| cur := Proc.initial; past := [] |}.

(** Every state of a run, in order, the current one last. *)
Definition trace (r : Run) : list Proc.t := past r ++ [cur r].

Definition exec {A} (m : M A) : Run := snd (m start_run).

End Eff.

#[global] Instance eff_ret : MRet Eff.M := @Eff.ret.
#[global] Instance eff_bind : MBind Eff.M := fun A B k m => Eff.bind m k.

(** ** [src/setupServer.ts] and [src/routes.ts] *)

Module SetupServer.

Import Express Proc.

Definition SERVER_PORT : Z := 3003.
Definition BASE_PATH : string := "/api/v1".

(** How a promise handed out by the Redis client settles. *)
Inductive Settled : Type := Resolves | Rejects (reason : string).

(** What the surroundings decide during one start of the server. *)
Record Env : Type := {
  pid : Z;
  pub_connect : Settled;
  sub_connect : Settled;
  sub_rejects_first : bool
}.

Section WithConfig.

Variable config : Config.t.

Definition cookieSessionOptions : CookieSessionOptions :=
  {| name := "session";
     keys := [Config.SECRET_KEY_ONE config; Config.SECRET_KEY_TWO config];
     maxAge := 24 * 7 * 3600;
     secure := Config.neq_str (Config.NODE_ENV config) "development" |}.

Definition httpCorsOptions : CorsOptions :=
  {| origin := Some "*";
     credentials := Some true;
     optionsSuccessStatus := Some 200;
     methods := ["GET"; "POST"; "PUT"; "DELETE"; "OPTIONS"] |}.

Definition securityMiddleware : Eff.M unit :=
  Eff.effect (with_app (use None [CookieSession cookieSessionOptions]));;
  Eff.effect (with_app (use None [Hpp]));;
  Eff.effect (with_app (use None [Helmet]));;
  Eff.effect (with_app (use None [Cors httpCorsOptions])).

Definition standardMiddleware : Eff.M unit :=
  Eff.effect (with_app (use None [Compression]));;
  Eff.effect (with_app (use None [JsonParser "50mb"]));;
  Eff.effect (with_app (use None [UrlencodedParser true "50mb"])).

(** [routes.ts]: the default export, applied to [app]. *)
Definition applicationRoute : Eff.M unit :=
  Eff.effect (with_app (use (Some "/queues") [ServerAdapterRouter]));;
  Eff.effect (with_app (use (Some BASE_PATH) [AuthRoutes]));;
  Eff.effect (with_app (use (Some BASE_PATH) [SignoutRoutes]));;
  Eff.effect
    (with_app (use (Some BASE_PATH) [VerifyUser; CurrentUserRoutes])).

Definition routeMiddleware : Eff.M unit := applicationRoute.

Definition globalErrorHandler : Eff.M unit :=
  Eff.effect (with_app (all "*" NotFoundHandler));;
  Eff.effect (with_app (use None [ErrorMiddleware])).

(** *** The two handlers installed by [globalErrorHandler] *)

Record Reply : Type := { status : Z; body : gmap string Js.Val }.

Definition notFound (originalUrl : string) : Reply :=
  {| status := Js.HTTP_NOT_FOUND;
     body := {[ "message" := Js.Str (originalUrl ++ " not found") ]} |}.

(** What the error middleware did with the request: it answered, or it
    called [next] (with or without an error). *)
Inductive Handled : Type :=
| Responded (r : Reply)
| CalledNext (err : option Exn).

Definition errorMiddleware (error : Exn) : Eff.M Handled :=
  Eff.effect (with_log (LogError error));;
  match error with
  | CustomError statusCode serialized =>
      mret (Responded {| status := statusCode; body := serialized |})
  | _ => mret (CalledNext None)
  end.

(** *** Starting the servers *)

Variable env : Env.

Definition startHttpServer : Eff.M unit :=
  Eff.effect (with_log (LogInfo "Server started with process " (pid env)));;
  Eff.effect
    (listen SERVER_PORT (LogInfo "Server running on port " SERVER_PORT)).

Definition ioCorsOptions : CorsOptions :=
  {| origin := Config.CLIENT_URL config;
     credentials := None;
     optionsSuccessStatus := None;
     methods := ["GET"; "POST"; "PUT"; "DELETE"; "OPTIONS"] |}.

Definition set_link (l : Link) (c : option RedisClient)
    : option RedisClient :=
  match c with
  | Some cl => Some {| url := url cl; link := l |}
  | None => None
  end.

Definition settled_link (s : Settled) : Link :=
  match s with Resolves => Ready | Rejects _ => Broken end.

(** [pubClient.duplicate()]: a new client with the options of the
    first, not connected. *)
Definition duplicate (c : option RedisClient) : option RedisClient :=
  set_link Idle c.

(** [await Promise.all([pubClient.connect(), subClient.connect()])].
    Both calls are made, then the function is suspended and the event
    loop goes on (the callbacks that wait run, requests are served); it
    resumes when both promises resolved, or throws the rejection that came
    first. *)
Definition await_connect_both : Eff.M unit :=
  Eff.effect (fun p =>
    with_subClient (set_link Connecting (subClient p))
      (with_pubClient (set_link Connecting (pubClient p)) p));;
  Eff.effect run_callbacks;;
  Eff.effect (fun p =>
    with_subClient (set_link (settled_link (sub_connect env)) (subClient p))
      (with_pubClient
         (set_link (settled_link (pub_connect env)) (pubClient p)) p));;
  match pub_connect env, sub_connect env with
  | Resolves, Resolves => mret tt
  | Rejects r, Resolves => Eff.throw (RedisConnectFailed "pubClient" r)
  | Resolves, Rejects r => Eff.throw (RedisConnectFailed "subClient" r)
  | Rejects r1, Rejects r2 =>
      if sub_rejects_first env
      then Eff.throw (RedisConnectFailed "subClient" r2)
      else Eff.throw (RedisConnectFailed "pubClient" r1)
  end.

Definition set_adapter (a : Adapter) (s : option IOServer)
    : option IOServer :=
  match s with
  | Some i => Some {| io_cors := io_cors i; adapter := a |}
  | None => None
  end.

Definition createSocketIO : Eff.M unit :=
  Eff.effect
    (with_io (Some {| io_cors := ioCorsOptions;
                      adapter := InMemoryAdapter |}));;
  Eff.effect
    (with_pubClient
       (Some {| url := Config.REDIS_HOST config; link := Idle |}));;
  Eff.effect (fun p => with_subClient (duplicate (pubClient p)) p);;
  await_connect_both;;
  Eff.effect (fun p => with_io (set_adapter RedisAdapter (io p)) p).

(** [socketIOConnections(io) {}] *)
Definition socketIOConnections : Eff.M unit := mret tt.

Definition startServer : Eff.M unit :=
  Eff.try_catch
    (startHttpServer;;
     createSocketIO;;
     socketIOConnections)
    (fun err => Eff.effect (with_log (LogError err))).

Definition start : Eff.M unit :=
  securityMiddleware;;
  standardMiddleware;;
  routeMiddleware;;
  globalErrorHandler;;
  startServer.

End WithConfig.

End SetupServer.

(** ** [src/setupDB.ts]: the database connection and its listener

    The module is event driven: [mongoose.connect] returns a promise that
    settles later, and the connection emits ['disconnected'].  The state
    keeps what the process has asked for and what it wrote; the events are
    fed by the surroundings. *)

Module SetupDB.

Inductive LogEntry : Type :=
| LogInfo (text : string)
| LogError (text error : string).

(** The functions registered with [mongoose.connection.on]. *)
Inductive Listener : Type := CallConnect.

Record t : Type := {
  attempts        : list string;   (* argument of every [mongoose.connect] call *)
  pending         : nat;           (* promises of [connect] not settled yet *)
  on_disconnected : list Listener;
  exitCode        : option Z;
  log             : list LogEntry
}.

Definition initial : t :=
  {| attempts := []; pending := 0%nat; on_disconnected := [];
     exitCode := None; log := [] |}.

Inductive Event : Type :=
| ConnectResolved
| ConnectRejected (error : string)
| Disconnected.

(** [`${v}`] for [v : string | undefined]. *)
Definition template (v : option string) : string :=
  match v with Some s => s | None => "undefined" end.

Section WithConfig.

Variable config : Config.t.

(** [connect()]: the call to [mongoose.connect] is made at once; the
    [then] and [catch] callbacks run when the promise settles. *)
Definition connect (p : t) : t :=
  {| attempts := attempts p ++ [template (Config.DATABASE_URL config)];
     pending := S (pending p);
     on_disconnected := on_disconnected p;
     exitCode := exitCode p;
     log := log p |}.

Definition on_resolved (p : t) : t :=
  {| attempts := attempts p;
     pending := Nat.pred (pending p);
     on_disconnected := on_disconnected p;
     exitCode := exitCode p;
     log := log p ++ [LogInfo "Successfully connected to database."] |}.

Definition on_rejected (error : string) (p : t) : t :=
  {| attempts := attempts p;
     pending := Nat.pred (pending p);
     on_disconnected := on_disconnected p;
     exitCode := Some 1;
     log := log p ++ [LogError "Error connecting to database" error] |}.

Definition call (l : Listener) (p : t) : t :=
  match l with CallConnect => connect p end.

(** The default export: [connect()], then the listener. *)
Definition databaseConnection (p : t) : t :=
  let p1 := connect p in
  {| attempts := attempts p1;
     pending := pending p1;
     on_disconnected := on_disconnected p1 ++ [CallConnect];
     exitCode := exitCode p1;
     log := log p1 |}.

(** One turn of the event loop.  Nothing runs after [process.exit]; a
    settlement with no promise outstanding cannot happen and changes
    nothing. *)
Definition step (p : t) (ev : Event) : t :=
  match exitCode p with
  | Some _ => p
  | None =>
      match ev with
      | ConnectResolved =>
          match pending p with O => p | S _ => on_resolved p end
      | ConnectRejected error =>
          match pending p with O => p | S _ => on_rejected error p end
      | Disconnected =>
          fold_left (fun q l => call l q) (on_disconnected p) p
      end
  end.

Definition run (p : t) (evs : list Event) : t := fold_left step evs p.

(** The process once the first connection is up. *)
Definition started : t :=
  step (databaseConnection initial) ConnectResolved.

End WithConfig.

Definition is_rejection (ev : Event) : bool :=
  match ev with ConnectRejected _ => true | _ => false end.

End SetupDB.

(** ** [src/features/auth/controllers/signin.ts] *)

Module SignIn.

(** The fields of [IAuthDocument] the controller reads. *)
Record IAuthDocument : Type := {
  _id         : string;
  uId         : string;
  email       : string;
  username    : string;
  avatarColor : string;
  createdAt   : Z
}.

(** [IUserDocument]: an open bag of fields (it is built by a spread). *)
Abbreviation IUserDocument := (gmap string Js.Val).

Record JwtPayload : Type := {
  jwt_userId      : string;
  jwt_uId         : string;
  jwt_email       : string;
  jwt_username    : string;
  jwt_avatarColor : string
}.

Record Body : Type := { body_username : string; body_password : string }.

Record Session : Type := { jwt : string }.

Record Request : Type := { body : Body; session : option Session }.

Record Json : Type := {
  message : string;
  user    : IUserDocument;
  token   : string
}.

Record Response : Type := { statusCode : Z; sent : option Json }.

(** A response nothing was written to yet. *)
Definition fresh : Response := {| statusCode := 200; sent := None |}.

Inductive Error : Type := BadReqestError (message : string).

(** How a call of the handler ends: it returns, having changed [req] and
    [res], or it throws. *)
Inductive Outcome : Type :=
| Returns (req : Request) (res : Response)
| Throws (e : Error).

Definition set_session (s : Session) (req : Request) : Request :=
  {| body := body req; session := Some s |}.

(** [res.status(code)] and [res.json(payload)] *)
Definition status (code : Z) (res : Response) : Response :=
  {| statusCode := code; sent := sent res |}.

Definition json (payload : Json) (res : Response) : Response :=
  {| statusCode := statusCode res; sent := Some payload |}.

(** [{ ...doc }] of a document that may be missing. *)
Definition spread (doc : option IUserDocument) : IUserDocument :=
  match doc with Some d => d | None => ∅ end.

Section WithServices.

Variable config : Config.t.

(** [authService.getAuthUserByUsername], [userService.getUserByAuthId],
    the [comparePassword] method of the auth document and [JWT.sign]:
    the services and packages the controller calls. *)
Variable getAuthUserByUsername : string -> option IAuthDocument.
Variable getUserByAuthId : string -> option IUserDocument.
Variable comparePassword : IAuthDocument -> string -> bool.
Variable JWT_sign : JwtPayload -> option string -> string.

Definition claim_of (existingUser : IAuthDocument) : JwtPayload :=
  {| jwt_userId := _id existingUser;
     jwt_uId := uId existingUser;
     jwt_email := email existingUser;
     jwt_username := username existingUser;
     jwt_avatarColor := avatarColor existingUser |}.

Definition userDocument_of (readUser : option IUserDocument)
    (existingUser : IAuthDocument) : IUserDocument :=
  <["createdAt" := Js.Date (createdAt existingUser)]>
    (<["uId" := Js.Str (uId existingUser)]>
      (<["avatarColor" := Js.Str (avatarColor existingUser)]>
        (<["email" := Js.Str (email existingUser)]>
          (<["username" := Js.Str (username existingUser)]>
            (<["authId" := Js.ObjectId (_id existingUser)]>
              (spread readUser)))))).

(** [SignIn.read], the method the [joiValidation(loginSchema)]
    decorator wraps: it runs on the requests the schema lets through. *)
Definition read (req : Request) (res : Response) : Outcome :=
  let username := body_username (body req) in
  let password := body_password (body req) in
  match getAuthUserByUsername username with
  | None => Throws (BadReqestError "Invalid credentials")
  | Some existingUser =>
      let passwordsMatch := comparePassword existingUser password in
      if negb passwordsMatch
      then Throws (BadReqestError "Invalid credentials")
      else
        let readUser := getUserByAuthId (_id existingUser) in
        let userJwt :=
          JWT_sign (claim_of existingUser) (Config.JWT_TOKEN config) in
        let req' := set_session {| jwt := userJwt |} req in
        let userDocument := userDocument_of readUser existingUser in
        Returns req'
          (json {| message := "User logged in successfully";
                   user := userDocument;
                   token := userJwt |}
                (status Js.HTTP_CREATED res))
  end.

End WithServices.

End SignIn.

(** ** The stages of the request pipeline (specification, section 4.6) *)

Module Pipeline.

Import Express.

Inductive Stage : Type :=
| Security
| BodyDecoding
| AuthGate
| BusinessDispatch
| ErrorNormalization.

(** Security filters are the origin check, compression and the header
    and parameter filters; the routers are business dispatch. *)
Definition stage_of (m : Middleware) : Stage :=
  match m with
  | CookieSession _ | Hpp | Helmet | Cors _ | Compression => Security
  | JsonParser _ | UrlencodedParser _ _ => BodyDecoding
  | VerifyUser => AuthGate
  | ServerAdapterRouter | AuthRoutes | SignoutRoutes | CurrentUserRoutes =>
      BusinessDispatch
  | NotFoundHandler | ErrorMiddleware => ErrorNormalization
  end.

Definition rank (s : Stage) : nat :=
  match s with
  | Security => 0
  | BodyDecoding => 1
  | AuthGate => 2
  | BusinessDispatch => 3
  | ErrorNormalization => 4
  end.

Definition is_stage (s : Stage) (m : Middleware) : bool :=
  Nat.eqb (rank (stage_of m)) (rank s).

(** The stages of a stack follow the fixed order: no layer is registered
    after a layer of a later stage. *)
Fixpoint in_order (l : list Middleware) : bool :=
  match l with
  | [] => true
  | a :: t =>
      forallb (fun b => Nat.leb (rank (stage_of a)) (rank (stage_of b))) t
      && in_order t
  end.

(** Every layer of stage [s1] is registered before every layer of stage
    [s2]. *)
Definition Precede (s1 s2 : Stage) (l : list Middleware) : Prop :=
  forall (i j : nat) (a b : Middleware),
    l !! i = Some a -> l !! j = Some b ->
    stage_of a = s1 -> stage_of b = s2 -> (i < j)%nat.

(** The same, decided: every layer satisfying [P] comes before every
    layer satisfying [Q]. *)
Fixpoint all_before (P Q : Middleware -> bool) (l : list Middleware)
    : bool :=
  match l with
  | [] => true
  | a :: t =>
      (if Q a then negb (P a) && forallb (fun b => negb (P b)) t else true)
      && all_before P Q t
  end.

End Pipeline.

(** ** Sample configurations and surroundings *)

Module Sample.

Import SetupServer.

Definition production : Config.t :=
  {| Config.DATABASE_URL := Some "mongodb://db:27017/akademia";
     Config.JWT_TOKEN := Some "jwt-secret";
     Config.NODE_ENV := Some "production";
     Config.SECRET_KEY_ONE := Some "key-one";
     Config.SECRET_KEY_TWO := Some "key-two";
     Config.CLIENT_URL := Some "http://localhost:3000";
     Config.REDIS_HOST := Some "redis://cache:6379" |}.

Definition all_connect : Env :=
  {| pid := 4242; pub_connect := Resolves; sub_connect := Resolves;
     sub_rejects_first := false |}.

Definition pub_refused : Env :=
  {| pid := 4242; pub_connect := Rejects "ECONNREFUSED";
     sub_connect := Resolves; sub_rejects_first := false |}.

Definition alice : SignIn.IAuthDocument :=
  {| SignIn._id := "64b0c0ffee"; SignIn.uId := "100200300";
     SignIn.email := "alice@example.org"; SignIn.username := "Alice";
     SignIn.avatarColor := "teal"; SignIn.createdAt := 1700000000000 |}.

Definition getAuthUserByUsername (n : string) : option SignIn.IAuthDocument :=
  if String.eqb n "Alice" then Some alice else None.

Definition getUserByAuthId (id : string) : option SignIn.IUserDocument :=
  if String.eqb id "64b0c0ffee"
  then Some {[ "_id" := Js.ObjectId "77aa"; "username" := Js.Str "stale" ]}
  else None.

Definition comparePassword (u : SignIn.IAuthDocument) (pw : string) : bool :=
  String.eqb pw "correct horse".

Definition JWT_sign (c : SignIn.JwtPayload) (key : option string) : string :=
  "jwt." ++ SignIn.jwt_userId c ++ "." ++ SignIn.jwt_username c.

Definition good_request : SignIn.Request :=
  {| SignIn.body := {| SignIn.body_username := "Alice";
                       SignIn.body_password := "correct horse" |};
     SignIn.session := None |}.

Definition wrong_password : SignIn.Request :=
  {| SignIn.body := {| SignIn.body_username := "Alice";
                       SignIn.body_password := "guess" |};
     SignIn.session := None |}.

Definition unknown_user : SignIn.Request :=
  {| SignIn.body := {| SignIn.body_username := "Mallory";
                       SignIn.body_password := "guess" |};
     SignIn.session := None |}.

End Sample.

(** ** The entry point: the file that declares [Application]

    [Application.initialize] validates the configuration, opens the
    database connection and starts the server.  [config.validateConfig] is
    declared in [./config]; it is taken as a function that returns or
    throws ([Some] is the message it throws with).  The system is the
    database side and the server side of the one process. *)

Module Bootstrap.

Record System : Type := { db : SetupDB.t; server : Eff.Run }.

Definition nothing_started : System :=
  {| db := SetupDB.initial; server := Eff.start_run |}.

(** How [initialize] ends: it returns, or an exception leaves it. *)
Inductive Outcome : Type :=
| Initialized (s : System)
| Uncaught (error : string) (s : System)
| UncaughtExn (e : Proc.Exn) (s : System).

Section WithConfig.

Variable validateConfig : Config.t -> option string.
Variable config : Config.t.
Variable env : SetupServer.Env.

Definition loadConfig : option string := validateConfig config.

Definition initialize : Outcome :=
  match loadConfig with
  | Some error => Uncaught error nothing_started
  | None =>
      let db1 := SetupDB.databaseConnection config SetupDB.initial in
      match SetupServer.start config env Eff.start_run with
      | (Eff.Ok _, r) => Initialized {| db := db1; server := r |}
      | (Eff.Throw e, r) => UncaughtExn e {| db := db1; server := r |}
      end
  end.

End WithConfig.

(** The exit code of the process, whichever side set it. *)
Definition exit_code (s : System) : option Z :=
  match SetupDB.exitCode (db s) with
  | Some code => Some code
  | None => Proc.exitCode (Eff.cur (server s))
  end.

End Bootstrap.

(** * Properties *)

Import Express Proc SetupServer.

(** ** What [start] leaves behind *)

Section StartFacts.

Variable config : Config.t.
Variable env : Env.

Let final : Proc.t := Eff.cur (Eff.exec (start config env)).

Lemma start_handlers :
  handlers (app final) =
    [ CookieSession (cookieSessionOptions config); Hpp; Helmet;
      Cors httpCorsOptions; Compression; JsonParser "50mb";
      UrlencodedParser true "50mb"; ServerAdapterRouter; AuthRoutes;
      SignoutRoutes; VerifyUser; CurrentUserRoutes; NotFoundHandler;
      ErrorMiddleware ].
Proof.
  subst final.
  destruct env as [n [|r1] [|r2] [|]]; vm_compute; reflexivity.
Qed.

Lemma start_listening : listening final = Some SERVER_PORT.
Proof.
  subst final.
  destruct env as [n [|r1] [|r2] [|]]; vm_compute; reflexivity.
Qed.

Lemma start_never_exits : exitCode final = None.
Proof.
  subst final.
  destruct env as [n [|r1] [|r2] [|]]; vm_compute; reflexivity.
Qed.

Lemma start_io :
  exists a,
    io final = Some {| io_cors := ioCorsOptions config; adapter := a |}.
Proof.
  subst final.
  destruct env as [n [|r1] [|r2] [|]]; eexists; vm_compute; reflexivity.
Qed.

End StartFacts.

(** ** Order of the pipeline *)

Lemma all_before_sound (P Q : Middleware -> bool) (l : list Middleware) :
  Pipeline.all_before P Q l = true ->
  forall (i j : nat) (a b : Middleware),
    l !! i = Some a -> l !! j = Some b ->
    P a = true -> Q b = true -> (i < j)%nat.
Proof.
  induction l as [|x t IH]; intros Hall i j a b Hi Hj HP HQ.
  - discriminate Hi.
  - cbn [Pipeline.all_before] in Hall.
    apply andb_prop in Hall as [Hhead Htail].
    destruct j as [|j'].
    + injection Hj as ->.
      rewrite HQ in Hhead.
      apply andb_prop in Hhead as [HnP Hrest].
      destruct i as [|i'].
      * injection Hi as ->. rewrite HP in HnP. discriminate HnP.
      * cbn in Hi.
        apply list_elem_of_lookup_2, list_elem_of_In in Hi.
        rewrite forallb_forall in Hrest.
        specialize (Hrest a Hi). rewrite HP in Hrest. discriminate Hrest.
    + destruct i as [|i']; [lia|].
      cbn in Hi, Hj.
      specialize (IH Htail i' j' a b Hi Hj HP HQ). lia.
Qed.

Lemma is_stage_true (s : Pipeline.Stage) (m : Middleware) :
  Pipeline.stage_of m = s -> Pipeline.is_stage s m = true.
Proof. intros <-. unfold Pipeline.is_stage. apply Nat.eqb_refl. Qed.

Lemma precede_decided (s1 s2 : Pipeline.Stage) (l : list Middleware) :
  Pipeline.all_before (Pipeline.is_stage s1) (Pipeline.is_stage s2) l = true ->
  Pipeline.Precede s1 s2 l.
Proof.
  intros Hall i j a b Hi Hj Ha Hb.
  eapply (all_before_sound _ _ l Hall i j a b); auto using is_stage_true.
Qed.

(** C7, as stated, fails: the stack [start] builds does not follow the
    order security, body decoding, authentication gate, business dispatch,
    error normalization.  The sign-in router (business dispatch, layer 8)
    is registered before the authentication gate (layer 10). *)
Lemma C7_stage_order_counterexample :
  let hs :=
    handlers (app (Eff.cur (Eff.exec
      (start Sample.production Sample.all_connect)))) in
  Pipeline.in_order hs = false
  /\ hs !! 8%nat = Some AuthRoutes
  /\ hs !! 10%nat = Some VerifyUser
  /\ Pipeline.stage_of AuthRoutes = Pipeline.BusinessDispatch
  /\ Pipeline.stage_of VerifyUser = Pipeline.AuthGate
  /\ ~ Pipeline.Precede Pipeline.AuthGate Pipeline.BusinessDispatch hs.
Proof.
  cbv zeta. rewrite start_handlers.
  repeat split; try (vm_compute; reflexivity).
  intros Hgate.
  specialize (Hgate 10%nat 8%nat VerifyUser AuthRoutes
                eq_refl eq_refl eq_refl eq_refl).
  lia.
Qed.

(** C7, amended: for every configuration, [start] registers the security
    filters, then the body decoders, then the routers, then the not-found
    and error handlers; every security filter comes before every body
    decoder.  Among the routers the queue dashboard, the auth routes and
    the sign-out routes come first and the authentication gate directly
    precedes the current-user routes only. *)
Theorem C7_pipeline_order (config : Config.t) (env : Env) :
  let hs := handlers (app (Eff.cur (Eff.exec (start config env)))) in
  Pipeline.Precede Pipeline.Security Pipeline.BodyDecoding hs
  /\ Pipeline.Precede Pipeline.BodyDecoding Pipeline.AuthGate hs
  /\ Pipeline.Precede Pipeline.BodyDecoding Pipeline.BusinessDispatch hs
  /\ Pipeline.Precede Pipeline.AuthGate Pipeline.ErrorNormalization hs
  /\ Pipeline.Precede Pipeline.BusinessDispatch Pipeline.ErrorNormalization hs
  /\ map Pipeline.stage_of (drop 7 hs) =
       [ Pipeline.BusinessDispatch; Pipeline.BusinessDispatch;
         Pipeline.BusinessDispatch; Pipeline.AuthGate;
         Pipeline.BusinessDispatch; Pipeline.ErrorNormalization;
         Pipeline.ErrorNormalization ]
  /\ drop 7 hs =
       [ ServerAdapterRouter; AuthRoutes; SignoutRoutes; VerifyUser;
         CurrentUserRoutes; NotFoundHandler; ErrorMiddleware ].
Proof.
  cbv zeta. rewrite start_handlers.
  repeat split; try (apply precede_decided); vm_compute; reflexivity.
Qed.

(** ** Cross-origin policy and session cookie *)

Lemma method_permitted_spec (o : CorsOptions) (m : string) :
  method_permitted o m = true <-> m ∈ methods o.
Proof.
  unfold method_permitted. rewrite existsb_exists. split.
  - intros (x & Hin & Heq). apply String.eqb_eq in Heq. subst x.
    by apply list_elem_of_In.
  - intros Hin. exists m. split.
    + by apply list_elem_of_In.
    + apply String.eqb_refl.
Qed.

Lemma wildcard_permits_all (o : CorsOptions) (request_origin : string) :
  origin o = Some "*" -> origin_permitted o request_origin = true.
Proof.
  intros Ho. unfold origin_permitted, allow_origin_header. by rewrite Ho.
Qed.

Lemma fixed_origin_permits_one (o : CorsOptions) (allowed request_origin : string) :
  origin o = Some allowed -> allowed <> "" -> allowed <> "*" ->
  origin_permitted o request_origin = true <-> request_origin = allowed.
Proof.
  intros Ho Hne Hns. unfold origin_permitted, allow_origin_header.
  rewrite Ho.
  apply String.eqb_neq in Hne. apply String.eqb_neq in Hns.
  rewrite Hne, Hns. cbn [orb].
  rewrite String.eqb_eq. split; congruence.
Qed.

(** C3, as stated, fails at the HTTP layer: with the client URL set to
    [http://localhost:3000], the [cors] layer [start] installs permits a
    request from another origin. *)
Lemma C3_http_origin_counterexample :
  let p := Eff.cur (Eff.exec (start Sample.production Sample.all_connect)) in
  Config.CLIENT_URL Sample.production = Some "http://localhost:3000"
  /\ exists o,
       cors_layers (app p) = [o]
       /\ origin_permitted o "http://evil.example" = true
       /\ "http://evil.example" <> "http://localhost:3000".
Proof.
  cbv zeta. split; [reflexivity|].
  exists httpCorsOptions. unfold cors_layers. rewrite start_handlers.
  repeat split; try (vm_compute; reflexivity). discriminate.
Qed.

(** C3, amended: the real-time transport restricts the allowed origins to
    the configured client URL, the HTTP layer allows every origin (its
    [origin] option is ['*']), and both permit the methods GET, POST, PUT,
    DELETE and OPTIONS and no other. *)
Theorem C3_cross_origin_policy (config : Config.t) (env : Env)
    (client : string) :
  Config.CLIENT_URL config = Some client ->
  client <> "" -> client <> "*" ->
  let p := Eff.cur (Eff.exec (start config env)) in
  (exists s, io p = Some s
     /\ origin (io_cors s) = Some client
     /\ (forall o, origin_permitted (io_cors s) o = true <-> o = client)
     /\ (forall m, method_permitted (io_cors s) m = true
                   <-> m ∈ ["GET"; "POST"; "PUT"; "DELETE"; "OPTIONS"]))
  /\ (exists h, cors_layers (app p) = [h]
     /\ origin h = Some "*"
     /\ (forall o, origin_permitted h o = true)
     /\ (forall m, method_permitted h m = true
                   <-> m ∈ ["GET"; "POST"; "PUT"; "DELETE"; "OPTIONS"])).
Proof.
  intros Hurl Hne Hns p. split.
  - destruct (start_io config env) as [a Hio]. fold p in Hio.
    eexists. split; [exact Hio|]. cbn [io_cors ioCorsOptions origin].
    split; [exact Hurl|]. split.
    + intros o. by apply fixed_origin_permits_one.
    + intros m. apply method_permitted_spec.
  - exists httpCorsOptions. subst p. unfold cors_layers.
    rewrite start_handlers. split; [reflexivity|]. split; [reflexivity|].
    split.
    + intros o. by apply wildcard_permits_all.
    + intros m. apply method_permitted_spec.
Qed.

Lemma C3_cross_origin_policy_witness :
  Config.CLIENT_URL Sample.production = Some "http://localhost:3000"
  /\ let p := Eff.cur (Eff.exec (start Sample.production Sample.all_connect)) in
     (exists s, io p = Some s
        /\ origin (io_cors s) = Some "http://localhost:3000"
        /\ (forall o, origin_permitted (io_cors s) o = true
                      <-> o = "http://localhost:3000")
        /\ (forall m, method_permitted (io_cors s) m = true
                      <-> m ∈ ["GET"; "POST"; "PUT"; "DELETE"; "OPTIONS"]))
     /\ (exists h, cors_layers (app p) = [h]
        /\ origin h = Some "*"
        /\ (forall o, origin_permitted h o = true)
        /\ (forall m, method_permitted h m = true
                      <-> m ∈ ["GET"; "POST"; "PUT"; "DELETE"; "OPTIONS"])).
Proof.
  split; [reflexivity|].
  apply (C3_cross_origin_policy Sample.production Sample.all_connect
           "http://localhost:3000"); [reflexivity | discriminate | discriminate].
Defined.

(** C4, on the code: [start] installs one [cookie-session] layer, named
    [session], secure exactly when [NODE_ENV] is not ['development'].  Its
    [maxAge] is the number 604800, which the package reads in
    milliseconds: 604 seconds, a thousand times short of seven days. *)
Theorem C4_session_cookie_options (config : Config.t) (env : Env) :
  let p := Eff.cur (Eff.exec (start config env)) in
  exists o,
    cookie_layers (app p) = [o]
    /\ name o = "session"
    /\ (secure o = false <-> Config.NODE_ENV config = Some "development")
    /\ maxAge o = 604800
    /\ max_age_seconds o = 604
    /\ maxAge o * 1000 = SEVEN_DAYS_MS
    /\ maxAge o <> SEVEN_DAYS_MS.
Proof.
  cbv zeta. exists (cookieSessionOptions config). unfold cookie_layers.
  rewrite start_handlers. split; [reflexivity|]. split; [reflexivity|].
  split.
  - cbn [secure cookieSessionOptions]. unfold Config.neq_str.
    destruct (Config.NODE_ENV config) as [v|].
    + rewrite negb_false_iff, String.eqb_eq. split; congruence.
    + split; discriminate.
  - repeat split; try (vm_compute; reflexivity). discriminate.
Qed.

(** ** Failure of a bus connection while starting *)

(** C1, as stated, fails: when [pubClient.connect()] is refused, [start]
    ends with the process alive (no exit code) and the HTTP server
    listening. *)
Lemma C1_startup_failure_counterexample :
  let p := Eff.cur (Eff.exec (start Sample.production Sample.pub_refused)) in
  pub_connect Sample.pub_refused = Rejects "ECONNREFUSED"
  /\ exitCode p = None
  /\ accepts_http p = true
  /\ ~ (exists code, exitCode p = Some code /\ code <> 0).
Proof.
  cbv zeta. repeat split; try (vm_compute; reflexivity).
  intros (code & Hcode & _). vm_compute in Hcode. discriminate Hcode.
Qed.

(** C1, amended: when connecting either bus connection fails during
    startup, the failure is caught and logged; the process does not exit,
    the HTTP server (already listening) keeps taking requests, and the
    Redis adapter is not attached. *)
Theorem C1_bus_failure_is_logged (config : Config.t) (env : Env) :
  pub_connect env <> Resolves \/ sub_connect env <> Resolves ->
  let p := Eff.cur (Eff.exec (start config env)) in
  exitCode p = None
  /\ listening p = Some SERVER_PORT
  /\ accepts_http p = true
  /\ has_redis_adapter p = false
  /\ exists client reason,
       last (log p) = Some (LogError (RedisConnectFailed client reason))
       /\ (pub_connect env = Rejects reason \/ sub_connect env = Rejects reason).
Proof.
  intros Hfail p. subst p.
  destruct env as [n [|r1] [|r2] [|]]; cbn [pub_connect sub_connect] in *;
    try (destruct Hfail as [H|H]; congruence);
    (repeat split; try (vm_compute; reflexivity));
    do 2 eexists; (split; [vm_compute; reflexivity|]); auto.
Qed.

Lemma C1_bus_failure_is_logged_witness :
  (pub_connect Sample.pub_refused <> Resolves
   \/ sub_connect Sample.pub_refused <> Resolves)
  /\ let p := Eff.cur (Eff.exec (start Sample.production Sample.pub_refused)) in
     exitCode p = None
     /\ listening p = Some SERVER_PORT
     /\ accepts_http p = true
     /\ has_redis_adapter p = false
     /\ exists client reason,
          last (log p) = Some (LogError (RedisConnectFailed client reason))
          /\ (pub_connect Sample.pub_refused = Rejects reason
              \/ sub_connect Sample.pub_refused = Rejects reason).
Proof.
  split.
  - left. discriminate.
  - apply (C1_bus_failure_is_logged Sample.production Sample.pub_refused).
    left. discriminate.
Defined.

(** ** The error middleware *)

(** C2, as stated, fails: for an error that is not a [CustomError] the
    middleware sends nothing, so in particular no response with status
    500; it calls [next()] without the error. *)
Lemma C2_unrecognized_error_counterexample :
  let out := fst (errorMiddleware (OtherError "TypeError: x is undefined")
                    Eff.start_run) in
  out = Eff.Ok (CalledNext None)
  /\ ~ (exists r, out = Eff.Ok (Responded r) /\ status r = 500).
Proof.
  cbv zeta. split; [reflexivity|].
  intros (r & Hr & _). discriminate Hr.
Qed.

(** C2, amended: every error reaching the error middleware is logged; for
    a [CustomError] the response carries that error's status code and its
    serialized form; for any other error the middleware writes no response
    (hence no internal detail) and calls [next()] with no argument. *)
Theorem C2_error_boundary (error : Exn) (r : Eff.Run) :
  exists h,
    errorMiddleware error r =
      (Eff.Ok h,
       {| Eff.cur := with_log (LogError error) (Eff.cur r);
          Eff.past := Eff.past r ++ [Eff.cur r] |})
    /\ (forall statusCode serialized,
          error = CustomError statusCode serialized ->
          h = Responded {| status := statusCode; body := serialized |})
    /\ ((forall statusCode serialized,
           error <> CustomError statusCode serialized) ->
        h = CalledNext None)
    /\ (forall reply, h = Responded reply ->
          error = CustomError (status reply) (body reply)).
Proof.
  destruct error as [sc ser|client reason|detail]; eexists;
    (split; [reflexivity|]); repeat split;
    try (intros; congruence).
  - intros Hneq. exfalso. by apply (Hneq sc ser).
  - intros reply Hr. injection Hr as <-. reflexivity.
Qed.

(** ** Order of listening and connecting *)

(** C5, as stated, fails.  When both connections succeed, the run of
    [start] passes through a state where the function is suspended on the
    two connects (both clients still connecting) while the HTTP server
    listens, its callback has run and the socket.io server is attached:
    real-time clients are accepted with no bus connection established.
    When the publish connection is refused and the subscribe connection
    succeeds, the process stays in such a state for good. *)
Lemma C5_accepts_before_bus_counterexample :
  (exists p,
     p ∈ Eff.trace (Eff.exec (start Sample.production Sample.all_connect))
     /\ link <$> pubClient p = Some Connecting
     /\ link <$> subClient p = Some Connecting
     /\ log p = [ LogInfo "Server started with process " 4242;
                  LogInfo "Server running on port " 3003 ]
     /\ accepts_realtime p = true
     /\ bus_ready p = false)
  /\ (let p := Eff.cur (Eff.exec (start Sample.production Sample.pub_refused)) in
      accepts_realtime p = true
      /\ is_ready (subClient p) = true
      /\ is_ready (pubClient p) = false
      /\ bus_ready p = false)
  /\ ~ (forall p,
          p ∈ Eff.trace (Eff.exec (start Sample.production Sample.all_connect)) ->
          accepts_realtime p = true -> bus_ready p = true).
Proof.
  assert (Hstate : exists p,
            Eff.trace (Eff.exec (start Sample.production Sample.all_connect))
              !! 20%nat = Some p
            /\ link <$> pubClient p = Some Connecting
            /\ link <$> subClient p = Some Connecting
            /\ log p = [ LogInfo "Server started with process " 4242;
                         LogInfo "Server running on port " 3003 ]
            /\ accepts_realtime p = true
            /\ bus_ready p = false).
  { eexists. split; [vm_compute; reflexivity|].
    repeat split; vm_compute; reflexivity. }
  destruct Hstate as (p & Hp & Hpub & Hsub & Hlog & Hacc & Hbus).
  apply list_elem_of_lookup_2 in Hp.
  split; [|split].
  - exists p. repeat split; assumption.
  - cbv zeta. repeat split; vm_compute; reflexivity.
  - intros Hall. specialize (Hall p Hp Hacc). congruence.
Qed.

(** Where the bus clients and the adapter stand along a run of [start]. *)
Lemma start_adapter_facts (config : Config.t) (env : Env) :
  let r := Eff.exec (start config env) in
  Forall (fun p => forall c, subClient p = Some c ->
            exists c', pubClient p = Some c'
                       /\ url c = url c'
                       /\ url c = Config.REDIS_HOST config)
         (Eff.trace r)
  /\ Forall (fun p => has_redis_adapter p = true -> bus_ready p = true)
            (Eff.trace r)
  /\ Forall (fun p => pubClient p <> None -> accepts_http p = true)
            (Eff.trace r)
  /\ (has_redis_adapter (Eff.cur r) = true
      <-> pub_connect env = Resolves /\ sub_connect env = Resolves).
Proof.
  cbv zeta.
  destruct env as [n [|r1] [|r2] [|]]; cbn [pub_connect sub_connect];
    (split; [|split; [|split]]).
  all: try (split; [ intros H; vm_compute in H; (split; congruence)
                   | intros [H1 H2]; vm_compute; congruence ]).
  all: vm_compute Eff.trace.
  all: repeat (apply List.Forall_cons;
         [ vm_compute; intros; try exact I; try congruence;
           try (match goal with
                | H : Some _ = Some _ |- _ => injection H as <-
                end; eexists; repeat split; reflexivity)
         | ]);
       try apply Forall_nil_2.
Qed.

(** From the moment the publish client exists, that is before any connect
    is attempted, real-time clients are accepted. *)
Lemma start_realtime_before_bus (config : Config.t) (env : Env) :
  Forall (fun p => pubClient p <> None -> accepts_realtime p = true)
         (Eff.trace (Eff.exec (start config env))).
Proof.
  destruct env as [n [|r1] [|r2] [|]]; vm_compute Eff.trace;
    repeat (apply List.Forall_cons;
              [ vm_compute; intros; try exact I; congruence | ]);
    apply List.Forall_nil.
Qed.

(** The state in which [createSocketIO] is suspended on the two connects. *)
Lemma start_suspended_state (config : Config.t) (env : Env) :
  exists p,
    p ∈ Eff.trace (Eff.exec (start config env))
    /\ link <$> pubClient p = Some Connecting
    /\ link <$> subClient p = Some Connecting
    /\ accepts_realtime p = true
    /\ bus_ready p = false.
Proof.
  destruct env as [n [|r1] [|r2] [|]]; eexists;
    (split; [ apply (list_elem_of_lookup_2 _ 20%nat); vm_compute; reflexivity |]);
    repeat split; vm_compute; reflexivity.
Qed.

Lemma start_ends_accepting (config : Config.t) (env : Env) :
  accepts_realtime (Eff.cur (Eff.exec (start config env))) = true.
Proof.
  destruct env as [n [|r1] [|r2] [|]]; vm_compute; reflexivity.
Qed.

(** C5, amended: the subscribe client is a duplicate of the publish
    client (same address); the Redis adapter is attached only once both
    connections are established, and it is attached at the end exactly when
    both connects resolve.  The HTTP server with the real-time server
    attached, however, accepts clients from before the first bus client
    exists: it does so in every state where a bus client exists, in
    particular while both connects are still under way and no bus
    connection is established, and it still does at the end, whatever the
    connects do. *)
Theorem C5_adapter_needs_both_connections (config : Config.t) (env : Env) :
  let r := Eff.exec (start config env) in
  Forall (fun p => forall c, subClient p = Some c ->
            exists c', pubClient p = Some c'
                       /\ url c = url c'
                       /\ url c = Config.REDIS_HOST config)
         (Eff.trace r)
  /\ Forall (fun p => has_redis_adapter p = true -> bus_ready p = true)
            (Eff.trace r)
  /\ Forall (fun p => pubClient p <> None -> accepts_http p = true)
            (Eff.trace r)
  /\ (has_redis_adapter (Eff.cur r) = true
      <-> pub_connect env = Resolves /\ sub_connect env = Resolves)
  /\ Forall (fun p => pubClient p <> None -> accepts_realtime p = true)
            (Eff.trace r)
  /\ (exists p,
        p ∈ Eff.trace r
        /\ link <$> pubClient p = Some Connecting
        /\ link <$> subClient p = Some Connecting
        /\ accepts_realtime p = true
        /\ bus_ready p = false)
  /\ accepts_realtime (Eff.cur r) = true.
Proof.
  cbv zeta.
  destruct (start_adapter_facts config env) as (Hdup & Hadapter & Hhttp & Hend).
  split; [exact Hdup|]. split; [exact Hadapter|]. split; [exact Hhttp|].
  split; [exact Hend|].
  split; [apply start_realtime_before_bus|].
  split; [apply start_suspended_state | apply start_ends_accepting].
Qed.

(** ** The database connection after startup *)

Section DatabaseConnection.

Import SetupDB.

Variable config : Config.t.

Lemma listeners_keep_alive (ls : list Listener) (p : SetupDB.t) :
  SetupDB.exitCode (fold_left (fun q l => call config l q) ls p)
  = SetupDB.exitCode p.
Proof.
  revert p. induction ls as [|l ls IH]; intros p; [reflexivity|].
  cbn [fold_left]. rewrite IH. by destruct l.
Qed.

Lemma step_after_exit (p : SetupDB.t) (ev : Event) (code : Z) :
  SetupDB.exitCode p = Some code -> step config p ev = p.
Proof. intros H. unfold step. by rewrite H. Qed.

Lemma step_keeps_listeners (p : SetupDB.t) (ev : Event) :
  on_disconnected (step config p ev) = on_disconnected p.
Proof.
  unfold step. destruct (SetupDB.exitCode p); [reflexivity|].
  destruct ev as [|error|].
  - by destruct (pending p).
  - by destruct (pending p).
  - generalize (on_disconnected p) at 1. intros ls. revert p.
    induction ls as [|l ls IH]; intros p; [reflexivity|].
    cbn [fold_left]. rewrite IH. by destruct l.
Qed.

Lemma run_keeps_listeners (evs : list Event) (p : SetupDB.t) :
  on_disconnected (run config p evs) = on_disconnected p.
Proof.
  revert p. induction evs as [|ev evs IH]; intros p; [reflexivity|].
  unfold run in *. cbn [fold_left]. rewrite IH. apply step_keeps_listeners.
Qed.

Lemma step_alive (p : SetupDB.t) (ev : Event) :
  SetupDB.exitCode p = None -> is_rejection ev = false ->
  SetupDB.exitCode (step config p ev) = None.
Proof.
  intros Halive Hev. unfold step. rewrite Halive.
  destruct ev as [|error|]; [|discriminate Hev|].
  - by destruct (pending p).
  - by rewrite listeners_keep_alive.
Qed.

Lemma run_alive (evs : list Event) (p : SetupDB.t) :
  SetupDB.exitCode p = None ->
  forallb (fun ev => negb (is_rejection ev)) evs = true ->
  SetupDB.exitCode (run config p evs) = None.
Proof.
  revert p. induction evs as [|ev evs IH]; intros p Halive Hevs;
    [exact Halive|].
  cbn [forallb] in Hevs. apply andb_prop in Hevs as [Hev Hrest].
  apply negb_true_iff in Hev.
  unfold run in *. cbn [fold_left]. apply IH; [|exact Hrest].
  by apply step_alive.
Qed.

(** What one ['disconnected'] event does to a live process with the
    listener of [databaseConnection]: one more [mongoose.connect], made
    in the same turn. *)
Lemma disconnected_reconnects (p : SetupDB.t) :
  SetupDB.exitCode p = None -> on_disconnected p = [CallConnect] ->
  step config p Disconnected = connect config p.
Proof. intros Halive Hls. unfold step. by rewrite Halive, Hls. Qed.

End DatabaseConnection.

(** C6, as stated, fails: after a successful startup, a disconnection
    followed by the failure of the reconnection attempt ends the process
    with exit code 1; and the reconnection attempt is issued in the very
    turn of the ['disconnected'] event, without a delay. *)
Lemma C6_reconnect_failure_counterexample :
  let p0 := SetupDB.started Sample.production in
  SetupDB.exitCode p0 = None
  /\ SetupDB.exitCode
       (SetupDB.run Sample.production p0
          [SetupDB.Disconnected; SetupDB.ConnectRejected "ECONNREFUSED"])
     = Some 1
  /\ length (SetupDB.attempts
               (SetupDB.step Sample.production p0 SetupDB.Disconnected))
     = S (length (SetupDB.attempts p0)).
Proof. cbv zeta. repeat split; vm_compute; reflexivity. Qed.

(** C6, amended: after startup, each ['disconnected'] event of the
    database connection makes the process call [connect] again at once,
    one attempt per event, with no delay and no bound on the number of
    attempts; the process stays alive as long as no attempt is rejected,
    and the first rejected attempt ends it with exit code 1. *)
Theorem C6_reconnect_until_rejected (config : Config.t)
    (evs : list SetupDB.Event) :
  let p := SetupDB.run config (SetupDB.started config) evs in
  (forallb (fun ev => negb (SetupDB.is_rejection ev)) evs = true ->
   SetupDB.exitCode p = None)
  /\ (SetupDB.exitCode p = None ->
      let q := SetupDB.step config p SetupDB.Disconnected in
      SetupDB.attempts q
        = SetupDB.attempts p
          ++ [SetupDB.template (Config.DATABASE_URL config)]
      /\ SetupDB.pending q = S (SetupDB.pending p)
      /\ SetupDB.exitCode q = None
      /\ forall error,
           SetupDB.exitCode
             (SetupDB.step config q (SetupDB.ConnectRejected error))
           = Some 1).
Proof.
  cbv zeta. split.
  - intros Hevs. by apply run_alive.
  - intros Halive.
    rewrite disconnected_reconnects; [| exact Halive |].
    + repeat split; try reflexivity; try exact Halive.
      intros error. unfold SetupDB.step.
      cbn [SetupDB.exitCode SetupDB.connect SetupDB.pending].
      by rewrite Halive.
    + by rewrite run_keeps_listeners.
Qed.

(** ** Sign-in *)

Section SignInFacts.

Import SignIn.

Variable config : Config.t.
Variable getAuthUserByUsername : string -> option IAuthDocument.
Variable getUserByAuthId : string -> option IUserDocument.
Variable comparePassword : IAuthDocument -> string -> bool.
Variable JWT_sign : JwtPayload -> option string -> string.

Let read :=
  SignIn.read config getAuthUserByUsername getUserByAuthId comparePassword
    JWT_sign.

(** The whole effect of a successful call. *)
Lemma read_success (req : Request) (res : Response) (u : IAuthDocument) :
  getAuthUserByUsername (body_username (body req)) = Some u ->
  comparePassword u (body_password (body req)) = true ->
  read req res =
    Returns
      {| body := body req;
         session :=
           Some {| jwt := JWT_sign (claim_of u) (Config.JWT_TOKEN config) |} |}
      {| statusCode := 201;
         sent :=
           Some {| message := "User logged in successfully";
                   user := userDocument_of (getUserByAuthId (_id u)) u;
                   token := JWT_sign (claim_of u) (Config.JWT_TOKEN config) |} |}.
Proof.
  intros Hu Hpw. subst read. unfold SignIn.read. by rewrite Hu, Hpw.
Qed.

(** The explicit fields win over whatever the spread brought. *)
Lemma userDocument_fields (readUser : option IUserDocument)
    (u : IAuthDocument) :
  let d := userDocument_of readUser u in
  d !! "authId" = Some (Js.ObjectId (_id u))
  /\ d !! "username" = Some (Js.Str (username u))
  /\ d !! "email" = Some (Js.Str (email u))
  /\ d !! "avatarColor" = Some (Js.Str (avatarColor u))
  /\ d !! "uId" = Some (Js.Str (uId u))
  /\ d !! "createdAt" = Some (Js.Date (createdAt u)).
Proof.
  cbv zeta. unfold userDocument_of. repeat split; by simplify_map_eq.
Qed.

(** The other fields are those of the user document read. *)
Lemma userDocument_other (readUser : option IUserDocument)
    (u : IAuthDocument) (k : string) :
  k ∉ ["authId"; "username"; "email"; "avatarColor"; "uId"; "createdAt"] ->
  userDocument_of readUser u !! k = spread readUser !! k.
Proof.
  intros Hk. unfold userDocument_of.
  repeat (rewrite lookup_insert_ne; [| intros <-; apply Hk; set_solver ]).
  reflexivity.
Qed.

Lemma read_throws (req : Request) (res : Response) (e : Error) :
  read req res = Throws e -> e = BadReqestError "Invalid credentials".
Proof.
  subst read. unfold SignIn.read.
  destruct (getAuthUserByUsername _) as [u|]; [|congruence].
  destruct (comparePassword u _); cbn [negb]; congruence.
Qed.

End SignInFacts.

(** C8: a sign-in whose username is that of an existing user and whose
    password matches is answered with status 201; the session is set to
    the token signed for that user, and both the signed claim and the user
    object returned carry the stored username, avatar color and
    identifier. *)
Theorem C8_signin_success (config : Config.t)
    (getAuthUserByUsername : string -> option SignIn.IAuthDocument)
    (getUserByAuthId : string -> option SignIn.IUserDocument)
    (comparePassword : SignIn.IAuthDocument -> string -> bool)
    (JWT_sign : SignIn.JwtPayload -> option string -> string)
    (req : SignIn.Request) (res : SignIn.Response)
    (u : SignIn.IAuthDocument) :
  getAuthUserByUsername (SignIn.body_username (SignIn.body req)) = Some u ->
  comparePassword u (SignIn.body_password (SignIn.body req)) = true ->
  exists req' res' payload,
    SignIn.read config getAuthUserByUsername getUserByAuthId comparePassword
      JWT_sign req res = SignIn.Returns req' res'
    /\ SignIn.statusCode res' = 201
    /\ SignIn.sent res' = Some payload
    /\ SignIn.session req'
       = Some {| SignIn.jwt :=
                   JWT_sign (SignIn.claim_of u) (Config.JWT_TOKEN config) |}
    /\ SignIn.jwt_username (SignIn.claim_of u) = SignIn.username u
    /\ SignIn.jwt_avatarColor (SignIn.claim_of u) = SignIn.avatarColor u
    /\ SignIn.jwt_userId (SignIn.claim_of u) = SignIn._id u
    /\ SignIn.user payload !! "username" = Some (Js.Str (SignIn.username u))
    /\ SignIn.user payload !! "avatarColor"
       = Some (Js.Str (SignIn.avatarColor u))
    /\ SignIn.user payload !! "authId" = Some (Js.ObjectId (SignIn._id u))
    /\ SignIn.user payload !! "uId" = Some (Js.Str (SignIn.uId u)).
Proof.
  intros Hu Hpw.
  do 3 eexists. split; [by apply read_success|].
  cbn [SignIn.statusCode SignIn.sent SignIn.session SignIn.user].
  destruct (userDocument_fields (getUserByAuthId (SignIn._id u)) u)
    as (Hid & Hname & _ & Hcolor & HuId & _).
  repeat split; assumption.
Qed.

Lemma C8_signin_success_witness :
  Sample.getAuthUserByUsername
    (SignIn.body_username (SignIn.body Sample.good_request))
  = Some Sample.alice
  /\ Sample.comparePassword Sample.alice
       (SignIn.body_password (SignIn.body Sample.good_request)) = true
  /\ exists req' res' payload,
    SignIn.read Sample.production Sample.getAuthUserByUsername
      Sample.getUserByAuthId Sample.comparePassword Sample.JWT_sign
      Sample.good_request SignIn.fresh = SignIn.Returns req' res'
    /\ SignIn.statusCode res' = 201
    /\ SignIn.sent res' = Some payload
    /\ SignIn.session req' = Some {| SignIn.jwt := "jwt.64b0c0ffee.Alice" |}
    /\ SignIn.user payload !! "username" = Some (Js.Str "Alice")
    /\ SignIn.user payload !! "avatarColor" = Some (Js.Str "teal")
    /\ SignIn.user payload !! "authId" = Some (Js.ObjectId "64b0c0ffee")
    /\ SignIn.user payload !! "uId" = Some (Js.Str "100200300").
Proof.
  split; [reflexivity|]. split; [reflexivity|].
  destruct (C8_signin_success Sample.production Sample.getAuthUserByUsername
              Sample.getUserByAuthId Sample.comparePassword Sample.JWT_sign
              Sample.good_request SignIn.fresh Sample.alice
              eq_refl eq_refl)
    as (req' & res' & payload & H1 & H2 & H3 & H4 & _ & _ & _ & H5 & H6 & H7 & H8).
  exists req', res', payload. repeat split; assumption.
Defined.

(** C9: a sign-in for a username that does not exist and a sign-in with a
    wrong password for an existing username end with the same error, a
    [BadReqestError] with message [Invalid credentials]; the handler throws
    no other error. *)
Theorem C9_uniform_signin_failure (config : Config.t)
    (getAuthUserByUsername : string -> option SignIn.IAuthDocument)
    (getUserByAuthId : string -> option SignIn.IUserDocument)
    (comparePassword : SignIn.IAuthDocument -> string -> bool)
    (JWT_sign : SignIn.JwtPayload -> option string -> string)
    (req1 req2 : SignIn.Request) (res1 res2 : SignIn.Response)
    (u : SignIn.IAuthDocument) :
  getAuthUserByUsername (SignIn.body_username (SignIn.body req1)) = None ->
  getAuthUserByUsername (SignIn.body_username (SignIn.body req2)) = Some u ->
  comparePassword u (SignIn.body_password (SignIn.body req2)) = false ->
  let read :=
    SignIn.read config getAuthUserByUsername getUserByAuthId comparePassword
      JWT_sign in
  read req1 res1 = SignIn.Throws (SignIn.BadReqestError "Invalid credentials")
  /\ read req2 res2
     = SignIn.Throws (SignIn.BadReqestError "Invalid credentials")
  /\ read req1 res1 = read req2 res2
  /\ forall req res e,
       read req res = SignIn.Throws e ->
       e = SignIn.BadReqestError "Invalid credentials".
Proof.
  intros Hnone Hsome Hpw read.
  assert (H1 : read req1 res1
               = SignIn.Throws (SignIn.BadReqestError "Invalid credentials")).
  { subst read. unfold SignIn.read. by rewrite Hnone. }
  assert (H2 : read req2 res2
               = SignIn.Throws (SignIn.BadReqestError "Invalid credentials")).
  { subst read. unfold SignIn.read. by rewrite Hsome, Hpw. }
  repeat split; [exact H1 | exact H2 | congruence |].
  intros req res e. apply read_throws.
Qed.

Lemma C9_uniform_signin_failure_witness :
  let read :=
    SignIn.read Sample.production Sample.getAuthUserByUsername
      Sample.getUserByAuthId Sample.comparePassword Sample.JWT_sign in
  Sample.getAuthUserByUsername
    (SignIn.body_username (SignIn.body Sample.unknown_user)) = None
  /\ Sample.getAuthUserByUsername
       (SignIn.body_username (SignIn.body Sample.wrong_password))
     = Some Sample.alice
  /\ Sample.comparePassword Sample.alice
       (SignIn.body_password (SignIn.body Sample.wrong_password)) = false
  /\ read Sample.unknown_user SignIn.fresh
  = SignIn.Throws (SignIn.BadReqestError "Invalid credentials")
  /\ read Sample.wrong_password SignIn.fresh
     = SignIn.Throws (SignIn.BadReqestError "Invalid credentials")
  /\ read Sample.unknown_user SignIn.fresh
     = read Sample.wrong_password SignIn.fresh.
Proof.
  cbv zeta. split; [reflexivity|]. split; [reflexivity|].
  split; [reflexivity|].
  destruct (C9_uniform_signin_failure Sample.production
              Sample.getAuthUserByUsername Sample.getUserByAuthId
              Sample.comparePassword Sample.JWT_sign
              Sample.unknown_user Sample.wrong_password
              SignIn.fresh SignIn.fresh Sample.alice
              eq_refl eq_refl eq_refl)
    as (H1 & H2 & H3 & _).
  repeat split; assumption.
Defined.

(** C10: on a successful sign-in the signed token is in the JSON body, in
    the field [token], and it is the very token stored in the session. *)
Theorem C10_token_in_response_body (config : Config.t)
    (getAuthUserByUsername : string -> option SignIn.IAuthDocument)
    (getUserByAuthId : string -> option SignIn.IUserDocument)
    (comparePassword : SignIn.IAuthDocument -> string -> bool)
    (JWT_sign : SignIn.JwtPayload -> option string -> string)
    (req : SignIn.Request) (res : SignIn.Response)
    (u : SignIn.IAuthDocument) :
  getAuthUserByUsername (SignIn.body_username (SignIn.body req)) = Some u ->
  comparePassword u (SignIn.body_password (SignIn.body req)) = true ->
  exists req' res' payload,
    SignIn.read config getAuthUserByUsername getUserByAuthId comparePassword
      JWT_sign req res = SignIn.Returns req' res'
    /\ SignIn.sent res' = Some payload
    /\ SignIn.token payload
       = JWT_sign (SignIn.claim_of u) (Config.JWT_TOKEN config)
    /\ SignIn.session req' = Some {| SignIn.jwt := SignIn.token payload |}.
Proof.
  intros Hu Hpw.
  do 3 eexists. split; [by apply read_success|].
  repeat split.
Qed.

Lemma C10_token_in_response_body_witness :
  Sample.getAuthUserByUsername
    (SignIn.body_username (SignIn.body Sample.good_request))
  = Some Sample.alice
  /\ Sample.comparePassword Sample.alice
       (SignIn.body_password (SignIn.body Sample.good_request)) = true
  /\ exists req' res' payload,
    SignIn.read Sample.production Sample.getAuthUserByUsername
      Sample.getUserByAuthId Sample.comparePassword Sample.JWT_sign
      Sample.good_request SignIn.fresh = SignIn.Returns req' res'
    /\ SignIn.sent res' = Some payload
    /\ SignIn.token payload = "jwt.64b0c0ffee.Alice"
    /\ SignIn.session req' = Some {| SignIn.jwt := SignIn.token payload |}.
Proof.
  split; [reflexivity|]. split; [reflexivity|].
  apply (C10_token_in_response_body Sample.production
           Sample.getAuthUserByUsername Sample.getUserByAuthId
           Sample.comparePassword Sample.JWT_sign
           Sample.good_request SignIn.fresh Sample.alice eq_refl eq_refl).
Defined.

(** * Further properties of the server setup *)

(** [start] never throws, whatever the process was before and however the
    Redis connects settle: every exception raised on the way is caught by
    the [try]/[catch] of [startServer]. *)
Theorem start_never_throws (config : Config.t) (env : Env) (r : Eff.Run) :
  fst (start config env r) = Eff.Ok tt.
Proof. destruct env as [n [|r1] [|r2] [|]]; reflexivity. Qed.

(** [createSocketIO] on its own completes exactly when both connects
    resolve; otherwise it throws the rejection of a client, and the Redis
    adapter has not been attached. *)
Theorem createSocketIO_throws_iff_rejected (config : Config.t) (env : Env)
    (r : Eff.Run) :
  (fst (createSocketIO config env r) = Eff.Ok tt
   <-> pub_connect env = Resolves /\ sub_connect env = Resolves)
  /\ (forall e,
        fst (createSocketIO config env r) = Eff.Throw e ->
        has_redis_adapter (Eff.cur (snd (createSocketIO config env r))) = false
        /\ exists client reason,
             e = RedisConnectFailed client reason
             /\ (client = "pubClient" /\ pub_connect env = Rejects reason
                 \/ client = "subClient" /\ sub_connect env = Rejects reason)).
Proof.
  destruct env as [n [|r1] [|r2] [|]]; cbn [pub_connect sub_connect]; split;
    try (split; [intros H | intros [H1 H2]];
         first [ reflexivity | discriminate
               | (split; congruence) | (cbn in H; discriminate) ]);
    intros e He; cbn in He; try discriminate He;
    injection He as <-; (split; [reflexivity|]);
    do 2 eexists; (split; [reflexivity|]); auto.
Qed.

(** [start] only adds to the application: the layers registered before
    stay, in place, and fourteen layers follow them, the global ones with
    no path, the routers under [/queues] and [/api/v1], the catch-all
    under ['*']. *)
Theorem start_appends_layers (config : Config.t) (env : Env) (r : Eff.Run) :
  app (Eff.cur (snd (start config env r))) =
    app (Eff.cur r) ++
    [ {| mount := None; handler := CookieSession (cookieSessionOptions config) |};
      {| mount := None; handler := Hpp |};
      {| mount := None; handler := Helmet |};
      {| mount := None; handler := Cors httpCorsOptions |};
      {| mount := None; handler := Compression |};
      {| mount := None; handler := JsonParser "50mb" |};
      {| mount := None; handler := UrlencodedParser true "50mb" |};
      {| mount := Some "/queues"; handler := ServerAdapterRouter |};
      {| mount := Some "/api/v1"; handler := AuthRoutes |};
      {| mount := Some "/api/v1"; handler := SignoutRoutes |};
      {| mount := Some "/api/v1"; handler := VerifyUser |};
      {| mount := Some "/api/v1"; handler := CurrentUserRoutes |};
      {| mount := Some "*"; handler := NotFoundHandler |};
      {| mount := None; handler := ErrorMiddleware |} ].
Proof.
  destruct env as [n [|r1] [|r2] [|]];
    cbv -[List.app cookieSessionOptions httpCorsOptions];
    rewrite <- ?app_assoc; reflexivity.
Qed.

(** The errors a fresh start writes to the log: none when both connects
    resolve, otherwise exactly one, the rejection of a connect that
    [startServer] caught. *)
Theorem start_logs_one_error (config : Config.t) (env : Env) :
  exists errors,
    omap (fun entry => match entry with
                       | LogError e => Some e
                       | LogInfo _ _ => None
                       end)
         (log (Eff.cur (Eff.exec (start config env)))) = errors
    /\ (length errors <= 1)%nat
    /\ (errors = [] <-> pub_connect env = Resolves /\ sub_connect env = Resolves)
    /\ Forall (fun e => exists client reason,
                  e = RedisConnectFailed client reason
                  /\ (pub_connect env = Rejects reason
                      \/ sub_connect env = Rejects reason))
              errors.
Proof.
  destruct env as [n pc sc first]. cbn [pub_connect sub_connect pid].
  destruct pc as [|r1], sc as [|r2];
    [ exists []
    | exists [RedisConnectFailed "subClient" r2]
    | exists [RedisConnectFailed "pubClient" r1]
    | destruct first;
      [ exists [RedisConnectFailed "subClient" r2]
      | exists [RedisConnectFailed "pubClient" r1] ] ];
    (split; [vm_compute; reflexivity|]); (split; [cbn; lia|]);
    (split; [split; [intros H | intros [H1 H2]]; first [done | congruence]|]);
    repeat (apply List.Forall_cons; [do 2 eexists; split; [reflexivity|]; auto|]);
    apply List.Forall_nil.
Qed.

(** The server setup reads the environment name, the two cookie secrets,
    the client URL and the Redis address only: two configurations that
    agree on these give the same run, whatever their JWT key and database
    address are. *)
Theorem start_ignores_jwt_and_database (c1 c2 : Config.t) (env : Env) :
  Config.NODE_ENV c1 = Config.NODE_ENV c2 ->
  Config.SECRET_KEY_ONE c1 = Config.SECRET_KEY_ONE c2 ->
  Config.SECRET_KEY_TWO c1 = Config.SECRET_KEY_TWO c2 ->
  Config.CLIENT_URL c1 = Config.CLIENT_URL c2 ->
  Config.REDIS_HOST c1 = Config.REDIS_HOST c2 ->
  Eff.exec (start c1 env) = Eff.exec (start c2 env).
Proof.
  destruct c1, c2. cbn. intros -> -> -> -> ->.
  destruct env as [n [|r1] [|r2] [|]]; vm_compute; reflexivity.
Qed.

Lemma start_ignores_jwt_and_database_witness :
  let other :=
    {| Config.DATABASE_URL := None;
       Config.JWT_TOKEN := Some "another-jwt-secret";
       Config.NODE_ENV := Some "production";
       Config.SECRET_KEY_ONE := Some "key-one";
       Config.SECRET_KEY_TWO := Some "key-two";
       Config.CLIENT_URL := Some "http://localhost:3000";
       Config.REDIS_HOST := Some "redis://cache:6379" |} in
  Config.JWT_TOKEN Sample.production <> Config.JWT_TOKEN other
  /\ Eff.exec (start Sample.production Sample.pub_refused)
     = Eff.exec (start other Sample.pub_refused).
Proof.
  cbv zeta. split; [discriminate|].
  apply start_ignores_jwt_and_database; reflexivity.
Defined.

(** ** The catch-all handler *)

Lemma list_of_append (s1 s2 : string) :
  String.list_ascii_of_string (s1 ++ s2)
  = String.list_ascii_of_string s1 ++ String.list_ascii_of_string s2.
Proof.
  induction s1 as [|c s1 IH]; [reflexivity|].
  cbn. by rewrite <- IH.
Qed.

Lemma append_inv_tail (s1 s2 t : string) : (s1 ++ t = s2 ++ t)%string -> s1 = s2.
Proof.
  intros H. apply (f_equal String.list_ascii_of_string) in H.
  rewrite !list_of_append in H. apply app_inv_tail in H.
  apply (f_equal String.string_of_list_ascii) in H.
  by rewrite !String.string_of_list_ascii_of_string in H.
Qed.

(** Two URLs get the same answer from the catch-all only if they are the
    same URL. *)
Theorem notFound_injective (url1 url2 : string) :
  notFound url1 = notFound url2 -> url1 = url2.
Proof.
  intros H. apply (f_equal (fun r => body r !! "message")) in H.
  unfold notFound in H. cbn [body] in H.
  rewrite !lookup_singleton_eq in H. injection H as H.
  by apply append_inv_tail in H.
Qed.

Lemma notFound_injective_witness :
  notFound "/api/v1/none" = notFound ("/api/v1/" ++ "none")
  /\ "/api/v1/none" = ("/api/v1/" ++ "none")%string.
Proof.
  split; [reflexivity|].
  apply (notFound_injective "/api/v1/none" ("/api/v1/" ++ "none")).
  reflexivity.
Defined.

(** * Further properties of the database connection *)

Section DatabaseInvariants.

Import SetupDB.

Variable config : Config.t.

Let url : string := template (Config.DATABASE_URL config).

Lemma run_after_exit (evs : list Event) (p : SetupDB.t) (code : Z) :
  SetupDB.exitCode p = Some code -> run config p evs = p.
Proof.
  intros Hexit. induction evs as [|ev evs IH]; [reflexivity|].
  unfold run in *. cbn [fold_left].
  by rewrite (step_after_exit config p ev code Hexit).
Qed.

(** A property kept by [connect] and by the two settlements is kept by
    every turn of the event loop, hence along every run. *)
Lemma step_invariant (I : SetupDB.t -> Prop) :
  (forall p, I p -> I (connect config p)) ->
  (forall p, pending p <> O -> SetupDB.exitCode p = None ->
             I p -> I (on_resolved p)) ->
  (forall error p, pending p <> O -> SetupDB.exitCode p = None ->
                   I p -> I (on_rejected error p)) ->
  forall p ev, I p -> I (step config p ev).
Proof.
  intros Hconnect Hres Hrej p ev HI. unfold step.
  destruct (SetupDB.exitCode p) as [code|] eqn:Hexit; [exact HI|].
  destruct ev as [|error|].
  - destruct (pending p) eqn:Hp; [exact HI|]. apply Hres; auto. lia.
  - destruct (pending p) eqn:Hp; [exact HI|]. apply Hrej; auto. lia.
  - clear Hexit. generalize (on_disconnected p). intros ls.
    revert p HI. induction ls as [|l ls IH]; intros p HI; [exact HI|].
    cbn [fold_left]. apply IH. destruct l. by apply Hconnect.
Qed.

Lemma run_invariant (I : SetupDB.t -> Prop) :
  (forall p ev, I p -> I (step config p ev)) ->
  forall evs p, I p -> I (run config p evs).
Proof.
  intros Hstep evs. induction evs as [|ev evs IH]; intros p HI; [exact HI|].
  unfold run in *. cbn [fold_left]. apply IH. by apply Hstep.
Qed.

(** Every connection attempt is accounted for: it is still pending, or its
    settlement wrote exactly one line to the log. *)
Theorem db_attempts_accounted (evs : list Event) :
  let p := run config (databaseConnection config initial) evs in
  length (attempts p) = (pending p + length (SetupDB.log p))%nat.
Proof.
  cbv zeta.
  apply (run_invariant
           (fun p => length (attempts p)
                     = (pending p + length (SetupDB.log p))%nat));
    [|reflexivity].
  apply step_invariant.
  - intros p HI. cbn. rewrite length_app. cbn. lia.
  - intros p Hp _ HI. cbn. rewrite length_app. cbn. lia.
  - intros error p Hp _ HI. cbn. rewrite length_app. cbn. lia.
Qed.

(** Every attempt goes to the configured address (the text [undefined]
    when there is none), and there is always at least the first one. *)
Theorem db_attempts_same_address (evs : list Event) :
  let p := run config (databaseConnection config initial) evs in
  Forall (fun a => a = template (Config.DATABASE_URL config)) (attempts p)
  /\ attempts p <> []
  /\ (Config.DATABASE_URL config = None ->
      Forall (fun a => a = "undefined") (attempts p)).
Proof.
  cbv zeta.
  assert (H : let p := run config (databaseConnection config initial) evs in
              Forall (fun a => a = url) (attempts p) /\ attempts p <> []).
  { cbv zeta.
    apply (run_invariant
             (fun p => Forall (fun a => a = url) (attempts p)
                       /\ attempts p <> [])).
    - apply step_invariant.
      + intros p [Hall Hne]. cbn. split.
        * apply Forall_app. split; [exact Hall|]. by constructor.
        * intros Happ. by apply app_eq_nil in Happ as [_ ?].
      + intros p _ _ HI. exact HI.
      + intros error p _ _ HI. exact HI.
    - cbn. split; [by repeat constructor | discriminate]. }
  cbv zeta in H. destruct H as [Hall Hne].
  split; [exact Hall|]. split; [exact Hne|].
  intros Hnone. subst url. rewrite Hnone in Hall. exact Hall.
Qed.

(** The process ends in one way only: with exit code 1, and the last line
    it wrote is the error of the connection attempt that failed. *)
Theorem db_exit_is_a_logged_failure (evs : list Event) :
  let p := run config (databaseConnection config initial) evs in
  SetupDB.exitCode p = None
  \/ (SetupDB.exitCode p = Some 1
      /\ exists error,
           last (SetupDB.log p)
           = Some (SetupDB.LogError "Error connecting to database" error)).
Proof.
  cbv zeta.
  apply (run_invariant
           (fun p => SetupDB.exitCode p = None
                     \/ (SetupDB.exitCode p = Some 1
                         /\ exists error,
                              last (SetupDB.log p)
                              = Some (SetupDB.LogError
                                        "Error connecting to database" error))));
    [| by left].
  apply step_invariant.
  - intros p HI. exact HI.
  - intros p _ Halive _. left. exact Halive.
  - intros error p _ _ _. right. split; [reflexivity|].
    exists error. cbn. apply last_snoc.
Qed.

Lemma run_app (p : SetupDB.t) (evs1 evs2 : list Event) :
  run config p (evs1 ++ evs2) = run config (run config p evs1) evs2.
Proof. unfold run. apply fold_left_app. Qed.

Lemma rejection_ends_run (p : SetupDB.t) (error : string) (after : list Event) :
  SetupDB.exitCode p = None -> pending p <> O ->
  run config p (ConnectRejected error :: after) = on_rejected error p.
Proof.
  intros Halive Hpending.
  assert (Hstep : step config p (ConnectRejected error) = on_rejected error p).
  { unfold step. rewrite Halive.
    destruct (pending p); [congruence | reflexivity]. }
  transitivity (run config (step config p (ConnectRejected error)) after);
    [reflexivity|].
  rewrite Hstep. by apply (run_after_exit after (on_rejected error p) 1).
Qed.

(** The rejection of a pending attempt is fatal, whichever attempt it is
    and whatever came before: the process exits with code 1 having logged
    the error as its last line, the attempts made so far stay as they are,
    and no later event changes anything. *)
Theorem db_rejection_is_fatal (before : list Event) (error : string)
    (after : list Event) :
  let p := run config (databaseConnection config initial) before in
  SetupDB.exitCode p = None ->
  pending p <> O ->
  let q := run config (databaseConnection config initial)
             (before ++ ConnectRejected error :: after) in
  SetupDB.exitCode q = Some 1
  /\ SetupDB.log q
     = SetupDB.log p ++ [SetupDB.LogError "Error connecting to database" error]
  /\ attempts q = attempts p
  /\ pending q = Nat.pred (pending p)
  /\ q = run config (databaseConnection config initial)
            (before ++ [ConnectRejected error]).
Proof.
  cbv zeta. intros Halive Hpending.
  rewrite !run_app, !rejection_ends_run by assumption.
  repeat split.
Qed.

(** When the database cannot be reached at startup: any number of
    ['disconnected'] events may come before the first attempt is rejected,
    each adding an attempt; the rejection ends the process with code 1, the
    error being the only line logged. *)
Theorem db_startup_failure_is_fatal (n : nat) (error : string)
    (after : list Event) :
  let q := run config (databaseConnection config initial)
             (repeat Disconnected n ++ ConnectRejected error :: after) in
  SetupDB.exitCode q = Some 1
  /\ SetupDB.log q = [SetupDB.LogError "Error connecting to database" error]
  /\ attempts q = repeat (template (Config.DATABASE_URL config)) (S n)
  /\ pending q = n.
Proof.
  cbv zeta.
  assert (Hbefore :
            let p := run config (databaseConnection config initial)
                       (repeat Disconnected n) in
            attempts p = repeat url (S n)
            /\ pending p = S n
            /\ SetupDB.log p = []
            /\ SetupDB.exitCode p = None).
  { cbv zeta.
    assert (H : forall q0,
              SetupDB.exitCode q0 = None -> on_disconnected q0 = [CallConnect] ->
              let p := run config q0 (repeat Disconnected n) in
              attempts p = attempts q0 ++ repeat url n
              /\ pending p = (pending q0 + n)%nat
              /\ SetupDB.log p = SetupDB.log q0
              /\ SetupDB.exitCode p = None).
    { induction n as [|k IH]; intros q0 Halive Hls; cbv zeta.
      - unfold run. cbn [repeat fold_left]. rewrite app_nil_r.
        split; [reflexivity|]. split; [lia|]. split; [reflexivity | exact Halive].
      - change (run config q0 (repeat Disconnected (S k)))
          with (run config (step config q0 Disconnected) (repeat Disconnected k)).
        rewrite (disconnected_reconnects config q0 Halive Hls).
        destruct (IH (connect config q0) Halive Hls) as (Ha & Hp & Hl & He).
        rewrite Ha, Hp, Hl. cbn [attempts pending connect SetupDB.log].
        rewrite <- app_assoc.
        split; [reflexivity|]. split; [lia|]. split; [reflexivity | exact He]. }
    destruct (H (databaseConnection config initial) eq_refl eq_refl)
      as (Ha & Hp & Hl & He).
    rewrite Ha, Hp, Hl. repeat split. exact He. }
  cbv zeta in Hbefore. destruct Hbefore as (Ha & Hp & Hl & He).
  rewrite run_app, rejection_ends_run; [| exact He | rewrite Hp; discriminate].
  cbn [on_rejected SetupDB.exitCode SetupDB.log attempts pending].
  rewrite Ha, Hp, Hl. repeat split.
Qed.

(** Reconnection has no delay and no bound: [n] disconnections in a row
    after startup leave [n] attempts pending, [n + 1] made in all, and the
    process alive. *)
Theorem db_disconnections_pile_up (n : nat) :
  let p := run config (started config) (repeat Disconnected n) in
  attempts p = repeat (template (Config.DATABASE_URL config)) (S n)
  /\ pending p = n
  /\ SetupDB.exitCode p = None.
Proof.
  cbv zeta.
  assert (H : forall q,
            SetupDB.exitCode q = None -> on_disconnected q = [CallConnect] ->
            let p := run config q (repeat Disconnected n) in
            attempts p = attempts q ++ repeat url n
            /\ pending p = (pending q + n)%nat
            /\ SetupDB.exitCode p = None).
  { induction n as [|k IH]; intros q Halive Hls; cbv zeta.
    - unfold run. cbn [repeat fold_left]. rewrite app_nil_r.
      split; [reflexivity|]. split; [lia | exact Halive].
    - change (run config q (repeat Disconnected (S k)))
        with (run config (step config q Disconnected) (repeat Disconnected k)).
      rewrite (disconnected_reconnects config q Halive Hls).
      destruct (IH (connect config q) Halive Hls) as (Ha & Hp & He).
      rewrite Ha, Hp. cbn [attempts pending connect].
      rewrite <- app_assoc.
      split; [reflexivity|]. split; [lia | exact He]. }
  destruct (H (started config) eq_refl eq_refl) as (Ha & Hp & He).
  rewrite Ha, Hp.
  split; [reflexivity|]. split; [reflexivity | exact He].
Qed.

(** One attempt per listener: a disconnection makes a live process call
    [connect] once for every listener registered, so calling
    [databaseConnection] [k] times makes every disconnection cost [k]
    attempts. *)
Theorem db_one_attempt_per_listener (k : nat) :
  let p := Nat.iter k (databaseConnection config) initial in
  let q := step config p Disconnected in
  length (on_disconnected p) = k
  /\ length (attempts p) = k
  /\ length (attempts q) = (k + k)%nat
  /\ pending q = (k + k)%nat.
Proof.
  cbv zeta.
  assert (Hiter : let p := Nat.iter k (databaseConnection config) initial in
                  length (on_disconnected p) = k
                  /\ length (attempts p) = k /\ pending p = k
                  /\ SetupDB.exitCode p = None).
  { induction k as [|k IH]; [by cbn|].
    cbv zeta in *. destruct IH as (Hl & Ha & Hp & He).
    change (Nat.iter (S k) (databaseConnection config) initial)
      with (databaseConnection config
              (Nat.iter k (databaseConnection config) initial)).
    remember (Nat.iter k (databaseConnection config) initial) as p0.
    unfold databaseConnection, connect.
    cbn [on_disconnected attempts pending SetupDB.exitCode].
    rewrite !length_app. cbn [length]. rewrite Hl, Ha, Hp.
    split; [lia|]. split; [lia|]. split; [reflexivity | exact He]. }
  cbv zeta in Hiter. destruct Hiter as (Hl & Ha & Hp & He).
  split; [exact Hl|]. split; [exact Ha|].
  unfold step. rewrite He.
  assert (Hfold : forall ls p0,
            let q := fold_left (fun q l => call config l q) ls p0 in
            length (attempts q) = (length (attempts p0) + length ls)%nat
            /\ pending q = (pending p0 + length ls)%nat).
  { induction ls as [|l ls IHls]; intros p0; cbv zeta.
    - cbn. lia.
    - cbn [fold_left]. destruct (IHls (call config l p0)) as [H1 H2].
      rewrite H1, H2. destruct l. cbn. rewrite length_app. cbn. lia. }
  destruct (Hfold (on_disconnected (Nat.iter k (databaseConnection config) initial))
              (Nat.iter k (databaseConnection config) initial)) as [H1 H2].
  rewrite H1, H2, Hl, Ha, Hp. lia.
Qed.

End DatabaseInvariants.

Lemma db_rejection_is_fatal_witness :
  let p := SetupDB.run Sample.production
             (SetupDB.databaseConnection Sample.production SetupDB.initial)
             [SetupDB.Disconnected] in
  let q := SetupDB.run Sample.production
             (SetupDB.databaseConnection Sample.production SetupDB.initial)
             ([SetupDB.Disconnected]
              ++ SetupDB.ConnectRejected "ECONNREFUSED"
                 :: [SetupDB.Disconnected; SetupDB.ConnectResolved]) in
  SetupDB.exitCode p = None
  /\ SetupDB.pending p <> O
  /\ SetupDB.exitCode q = Some 1
  /\ SetupDB.log q
     = [SetupDB.LogError "Error connecting to database" "ECONNREFUSED"]
  /\ length (SetupDB.attempts q) = 2%nat.
Proof.
  cbv zeta.
  assert (Halive : SetupDB.exitCode
                     (SetupDB.run Sample.production
                        (SetupDB.databaseConnection Sample.production
                           SetupDB.initial)
                        [SetupDB.Disconnected]) = None) by reflexivity.
  assert (Hpending : SetupDB.pending
                       (SetupDB.run Sample.production
                          (SetupDB.databaseConnection Sample.production
                             SetupDB.initial)
                          [SetupDB.Disconnected]) <> O) by discriminate.
  split; [exact Halive|]. split; [exact Hpending|].
  destruct (db_rejection_is_fatal Sample.production [SetupDB.Disconnected]
              "ECONNREFUSED" [SetupDB.Disconnected; SetupDB.ConnectResolved]
              Halive Hpending)
    as (Hexit & Hlog & Hattempts & _).
  split; [exact Hexit|]. split; [exact Hlog|].
  rewrite Hattempts. reflexivity.
Defined.

(** * Further properties of the sign-in handler *)

Section SignInBehaviour.

Import SignIn.

Variable config : Config.t.
Variable getAuthUserByUsername : string -> option IAuthDocument.
Variable getUserByAuthId : string -> option IUserDocument.
Variable comparePassword : IAuthDocument -> string -> bool.
Variable JWT_sign : JwtPayload -> option string -> string.

Let read :=
  SignIn.read config getAuthUserByUsername getUserByAuthId comparePassword
    JWT_sign.

(** The handler returns exactly when the username is that of a stored
    user whose [comparePassword] accepts the password; in every other case
    it throws. *)
Theorem signin_returns_iff (req : Request) (res : Response) :
  (exists req' res', read req res = Returns req' res')
  <-> (exists u,
         getAuthUserByUsername (body_username (body req)) = Some u
         /\ comparePassword u (body_password (body req)) = true).
Proof.
  split.
  - intros (req' & res' & Hread). subst read. unfold SignIn.read in Hread.
    destruct (getAuthUserByUsername _) as [u|]; [|discriminate Hread].
    exists u. split; [reflexivity|].
    by destruct (comparePassword u _).
  - intros (u & Hu & Hpw). do 2 eexists.
    by apply (read_success config getAuthUserByUsername getUserByAuthId
                comparePassword JWT_sign req res u).
Qed.

Lemma userDocument_dom (readUser : option IUserDocument) (u : IAuthDocument) :
  dom (userDocument_of readUser u)
  = {[ "authId"; "username"; "email"; "avatarColor"; "uId"; "createdAt" ]}
    ∪ dom (spread readUser).
Proof.
  unfold userDocument_of. rewrite !dom_insert_L.
  apply set_eq. intros x. rewrite !elem_of_union, !elem_of_singleton. tauto.
Qed.

(** The user object of a successful answer has the six fields taken from
    the auth document and the fields of the stored user document, no
    other; when there is no stored user document it has the six only. *)
Theorem signin_user_object_fields (req : Request) (res : Response)
    (u : IAuthDocument) :
  getAuthUserByUsername (body_username (body req)) = Some u ->
  comparePassword u (body_password (body req)) = true ->
  exists req' res' payload,
    read req res = Returns req' res'
    /\ sent res' = Some payload
    /\ dom (user payload)
       = {[ "authId"; "username"; "email"; "avatarColor"; "uId"; "createdAt" ]}
         ∪ dom (spread (getUserByAuthId (_id u)))
    /\ user payload !! "email" = Some (Js.Str (email u))
    /\ user payload !! "createdAt" = Some (Js.Date (createdAt u))
    /\ (getUserByAuthId (_id u) = None -> size (user payload) = 6%nat).
Proof.
  intros Hu Hpw. do 3 eexists.
  split; [by apply read_success|]. cbn [sent user].
  split; [reflexivity|]. split; [apply userDocument_dom|].
  destruct (userDocument_fields (getUserByAuthId (_id u)) u)
    as (_ & _ & Hemail & _ & _ & Hcreated).
  split; [exact Hemail|]. split; [exact Hcreated|].
  intros Hnone. rewrite Hnone. unfold userDocument_of, spread. cbn [user].
  rewrite !map_size_insert_None; [by rewrite map_size_empty | by simplify_map_eq ..].
Qed.

(** Every field of the stored user document that is not one of the six
    overridden reaches the answer unchanged. *)
Theorem signin_keeps_other_fields (req : Request) (res : Response)
    (u : IAuthDocument) (k : string) :
  getAuthUserByUsername (body_username (body req)) = Some u ->
  comparePassword u (body_password (body req)) = true ->
  k ∉ ["authId"; "username"; "email"; "avatarColor"; "uId"; "createdAt"] ->
  exists req' res' payload,
    read req res = Returns req' res'
    /\ sent res' = Some payload
    /\ user payload !! k = spread (getUserByAuthId (_id u)) !! k.
Proof.
  intros Hu Hpw Hk. do 3 eexists.
  split; [by apply read_success|]. cbn [sent user].
  split; [reflexivity|]. by apply userDocument_other.
Qed.

End SignInBehaviour.

Lemma signin_user_object_fields_witness :
  Sample.getAuthUserByUsername
    (SignIn.body_username (SignIn.body Sample.good_request))
  = Some Sample.alice
  /\ Sample.comparePassword Sample.alice
       (SignIn.body_password (SignIn.body Sample.good_request)) = true
  /\ exists req' res' payload,
       SignIn.read Sample.production Sample.getAuthUserByUsername
         Sample.getUserByAuthId Sample.comparePassword Sample.JWT_sign
         Sample.good_request SignIn.fresh = SignIn.Returns req' res'
       /\ SignIn.sent res' = Some payload
       /\ SignIn.user payload !! "email" = Some (Js.Str "alice@example.org").
Proof.
  split; [reflexivity|]. split; [reflexivity|].
  destruct (signin_user_object_fields Sample.production
              Sample.getAuthUserByUsername Sample.getUserByAuthId
              Sample.comparePassword Sample.JWT_sign
              Sample.good_request SignIn.fresh Sample.alice
              eq_refl eq_refl)
    as (req' & res' & payload & H1 & H2 & _ & H3 & _).
  exists req', res', payload. repeat split; assumption.
Defined.

Lemma signin_keeps_other_fields_witness :
  ("_id" ∉ ["authId"; "username"; "email"; "avatarColor"; "uId"; "createdAt"])
  /\ exists req' res' payload,
       SignIn.read Sample.production Sample.getAuthUserByUsername
         Sample.getUserByAuthId Sample.comparePassword Sample.JWT_sign
         Sample.good_request SignIn.fresh = SignIn.Returns req' res'
       /\ SignIn.sent res' = Some payload
       /\ SignIn.user payload !! "_id" = Some (Js.ObjectId "77aa").
Proof.
  assert (Hk : "_id" ∉ ["authId"; "username"; "email"; "avatarColor";
                        "uId"; "createdAt"]).
  { rewrite !not_elem_of_cons. repeat split; try discriminate.
    apply not_elem_of_nil. }
  split; [exact Hk|].
  destruct (signin_keeps_other_fields Sample.production
              Sample.getAuthUserByUsername Sample.getUserByAuthId
              Sample.comparePassword Sample.JWT_sign
              Sample.good_request SignIn.fresh Sample.alice "_id"
              eq_refl eq_refl Hk)
    as (req' & res' & payload & H1 & H2 & H3).
  exists req', res', payload. repeat split; [exact H1 | exact H2 |].
  rewrite H3. reflexivity.
Defined.

(** * Properties of the entry point *)

Lemma start_result (config : Config.t) (env : Env) (r : Eff.Run) :
  start config env r = (Eff.Ok tt, snd (start config env r)).
Proof.
  pose proof (start_never_throws config env r) as Hok.
  rewrite (surjective_pairing (start config env r)) at 1.
  rewrite Hok. reflexivity.
Qed.

Lemma start_fresh (config : Config.t) (env : Env) :
  listening (Eff.cur (snd (start config env Eff.start_run))) = Some 3003
  /\ exitCode (Eff.cur (snd (start config env Eff.start_run))) = None.
Proof.
  destruct env as [n [|r1] [|r2] [|]]; vm_compute; split; reflexivity.
Qed.

(** [initialize] stops at a configuration that does not validate, with
    nothing started: no connection attempt, no listener, no server.
    Otherwise it returns with the first database attempt pending, the
    reconnect listener registered and the HTTP server listening on 3003;
    no exception of the server setup escapes it. *)
Theorem initialize_outcome (validateConfig : Config.t -> option string)
    (config : Config.t) (env : Env) :
  match validateConfig config with
  | Some error =>
      Bootstrap.initialize validateConfig config env
      = Bootstrap.Uncaught error Bootstrap.nothing_started
      /\ SetupDB.attempts (Bootstrap.db Bootstrap.nothing_started) = []
      /\ accepts_http (Eff.cur (Bootstrap.server Bootstrap.nothing_started))
         = false
  | None =>
      exists s,
        Bootstrap.initialize validateConfig config env = Bootstrap.Initialized s
        /\ SetupDB.attempts (Bootstrap.db s)
           = [SetupDB.template (Config.DATABASE_URL config)]
        /\ SetupDB.pending (Bootstrap.db s) = 1%nat
        /\ SetupDB.on_disconnected (Bootstrap.db s) = [SetupDB.CallConnect]
        /\ listening (Eff.cur (Bootstrap.server s)) = Some 3003
        /\ Bootstrap.exit_code s = None
  end.
Proof.
  unfold Bootstrap.initialize, Bootstrap.loadConfig.
  destruct (validateConfig config) as [error|].
  - split; [reflexivity|]. split; reflexivity.
  - destruct (start_fresh config env) as [Hlisten Halive].
    rewrite (start_result config env Eff.start_run).
    remember (snd (start config env Eff.start_run)) as r eqn:Hr in *.
    clear Hr.
    exists {| Bootstrap.db :=
                SetupDB.databaseConnection config SetupDB.initial;
              Bootstrap.server := r |}.
    split; [reflexivity|].
    unfold Bootstrap.exit_code. cbn [Bootstrap.db Bootstrap.server].
    split; [reflexivity|]. split; [reflexivity|]. split; [reflexivity|].
    split; [exact Hlisten|].
    change (SetupDB.exitCode
              (SetupDB.databaseConnection config SetupDB.initial))
      with (@None Z).
    exact Halive.
Qed.
